(** * Authentication flow of the Zamanix blog: controllers, client form, bootstrap

    A shallow embedding of
      - [server/controllers/userController.js]  ([registerUser], [loginUser]),
      - [src/components/LoginForm.tsx]          (the client form handlers),
      - [server/index.js]                       ([connectDB], [initializeApp]),
    followed by the properties the specification states about them. *)

From Stdlib Require Import String Ascii List Bool ZArith QArith Lia.
Import ListNotations.
Local Open Scope string_scope.
Set Warnings "-register-all".

(* ================================================================== *)
(** * JavaScript values *)
(* ================================================================== *)

Module Js.

(** The values a parsed JSON request body, or a response literal, is
    made of.  Objects are association lists, first binding wins. *)
Inductive value : Type :=
| Undefined
| Null
| Bool (b : bool)
| Number (z : Z)
| Str (s : string)
| Object (fields : list (string * value)).

(** [ToBoolean]: what [if (v)], [!v] and [v && ...] test. *)
Definition truthy (v : value) : bool :=
  match v with
  | Undefined | Null => false
  | Bool b => b
  | Number z => negb (Z.eqb z 0)
  | Str s => negb (String.eqb s "")
  | Object _ => true
  end.

(** [v === 'literal']: strict equality against a string literal. *)
Definition is_string (v : value) (lit : string) : bool :=
  match v with
  | Str s => String.eqb s lit
  | _ => false
  end.

Fixpoint assoc (k : string) (fields : list (string * value)) : option value :=
  match fields with
  | [] => None
  | (k', v) :: rest => if String.eqb k k' then Some v else assoc k rest
  end.

(** Property read [o.k]; a missing property reads as [undefined]. *)
Definition get (k : string) (o : value) : value :=
  match o with
  | Object fields =>
      match assoc k fields with
      | Some v => v
      | None => Undefined
      end
  | _ => Undefined
  end.

(** [k in o] for an object literal. *)
Definition has (k : string) (o : value) : bool :=
  match o with
  | Object fields =>
      match assoc k fields with
      | Some _ => true
      | None => false
      end
  | _ => false
  end.

Definition keys (o : value) : list string :=
  match o with
  | Object fields => map fst fields
  | _ => []
  end.

(** [a || b] on values. *)
Definition or_else (a b : value) : value :=
  if truthy a then a else b.

End Js.

(** A thrown JavaScript error; only its [message] is ever read. *)
Record JsError : Type := mkError { message : Js.value }.

(** The outcome of a call that may throw (or of an awaited promise that
    may reject). *)
Inductive Outcome (A : Type) : Type :=
| Returned (a : A)
| Thrown (e : JsError).
Arguments Returned {A} a.
Arguments Thrown {A} e.

(* ================================================================== *)
(** * The HTTP response object *)
(* ================================================================== *)

(** What [res.status(c).json(b)] sends.  Express starts every response
    at status 200, which is what a bare [res.json(b)] sends. *)
Record Response : Type := mkResponse
  { statusCode : Z;
    body : Js.value }.

Definition res_json (b : Js.value) : Response := mkResponse 200 b.
Definition res_status_json (c : Z) (b : Js.value) : Response := mkResponse c b.

(* ================================================================== *)
(** * The collaborators of the controllers *)
(* ================================================================== *)

(** Calls the controllers make into modules kept outside them.  Each
    call is recorded, in order, in the trace of the request. *)
Inductive Event : Type :=
| EvFindOne (email : Js.value)
| EvMatchPassword (id : string) (candidate : Js.value)
| EvVerifyPassphrase (id : string) (candidate : Js.value)
| EvGenerateToken (id : string)
| EvGeneratePassphrase
| EvCreate (name email phone password : Js.value) (passphrase : string).

(** A stored user document, as far as the controllers read it. *)
Record UserFields : Type := mkUserFields
  { _id : string;
    u_name : string;
    u_email : string;
    u_phone : string }.

(** [models/User.js], [utils/generateToken.js] and
    [utils/generatePassphrase.js] are imported by the controller; their
    behaviour is a parameter of everything below. *)
Class Collaborators : Type := mkCollaborators
  { Store : Type;
    Entropy : Type;
    UserDoc : Type;
    fields : UserDoc -> UserFields;
    (* [await User.findOne({ email })] *)
    User_findOne : Store -> Js.value -> Outcome (option UserDoc);
    (* [await User.create({ name, email, phone, password, passphrase })] *)
    User_create : Store -> Js.value -> Js.value -> Js.value -> Js.value ->
                  string -> Outcome UserDoc * Store;
    (* [await user.matchPassword(password)] *)
    user_matchPassword : UserDoc -> Js.value -> Outcome bool;
    (* [user.verifyPassphrase(passphrase)], called synchronously *)
    user_verifyPassphrase : UserDoc -> Js.value -> Outcome bool;
    (* [generateToken(user._id)] *)
    generateToken : string -> Outcome string;
    (* [generatePassphrase()] *)
    generatePassphrase : Entropy -> Outcome string * Entropy }.

(** The state a request runs in: the credential store, the random
    source, and the calls made so far. *)
Record World `{Collaborators} : Type := mkWorld
  { w_store : Store;
    w_entropy : Entropy;
    w_trace : list Event }.
Arguments mkWorld {_} _ _ _.

(* ================================================================== *)
(** * A state-and-exception monad for the handlers *)
(* ================================================================== *)

Section HandlerMonad.
Context `{C : Collaborators}.

Definition M (A : Type) : Type := World -> Outcome A * World.

Definition ret {A} (a : A) : M A := fun w => (Returned a, w).

Definition bind {A B} (m : M A) (k : A -> M B) : M B :=
  fun w =>
    match m w with
    | (Returned a, w') => k a w'
    | (Thrown e, w') => (Thrown e, w')
    end.

(** [try { m } catch (error) { h error }], for a handler [h] that does
    not throw itself. *)
Definition try_catch {A} (m : M A) (h : JsError -> A) : World -> A * World :=
  fun w =>
    match m w with
    | (Returned a, w') => (a, w')
    | (Thrown e, w') => (h e, w')
    end.

Definition record (ev : Event) (w : World) : World :=
  mkWorld (w_store w) (w_entropy w) (w_trace w ++ [ev]).

(** A call that reads the store or a document and records itself. *)
Definition call {A} (ev : Event) (f : Store -> Outcome A) : M A :=
  fun w => (f (w_store w), record ev w).

Definition findOne (email : Js.value) : M (option UserDoc) :=
  call (EvFindOne email) (fun st => User_findOne st email).

Definition matchPassword (user : UserDoc) (password : Js.value) : M bool :=
  call (EvMatchPassword (_id (fields user)) password)
       (fun _ => user_matchPassword user password).

Definition verifyPassphrase (user : UserDoc) (passphrase : Js.value) : M bool :=
  call (EvVerifyPassphrase (_id (fields user)) passphrase)
       (fun _ => user_verifyPassphrase user passphrase).

Definition issueToken (id : string) : M string :=
  call (EvGenerateToken id) (fun _ => generateToken id).

Definition freshPassphrase : M string :=
  fun w =>
    let '(r, e') := generatePassphrase (w_entropy w) in
    (r, mkWorld (w_store w) e' (w_trace w ++ [EvGeneratePassphrase])).

Definition create (name email phone password : Js.value) (passphrase : string)
  : M UserDoc :=
  fun w =>
    let '(r, st') := User_create (w_store w) name email phone password passphrase in
    (r, mkWorld st' (w_entropy w)
                (w_trace w ++ [EvCreate name email phone password passphrase])).

End HandlerMonad.

Notation "x <- m ;; k" := (bind m (fun x => k))
  (at level 61, m at next level, right associativity).

(* ================================================================== *)
(** * [server/controllers/userController.js] *)
(* ================================================================== *)

Definition admin_email : string := "admin@zamanix.com".
Definition admin_password : string := "zamanix_admin".

Definition error_body (msg : Js.value) : Js.value :=
  Js.Object [("status", Js.Str "error"); ("message", msg)].

Section Controllers.
Context `{C : Collaborators}.

(** The object literal of the 201 response of [registerUser]. *)
Definition registered_body (user : UserFields) (passphrase token : string)
  : Js.value :=
  Js.Object
    [("status", Js.Str "success");
     ("message", Js.Str "Account created successfully");
     ("data", Js.Object
        [("_id", Js.Str (_id user));
         ("name", Js.Str (u_name user));
         ("email", Js.Str (u_email user));
         ("phone", Js.Str (u_phone user));
         ("passphrase", Js.Str passphrase);
         ("token", Js.Str token)])].

(** [registerUser]: [req.body] in, the response sent out. *)
Definition registerUser (req_body : Js.value) : World -> Response * World :=
  try_catch
    (let name := Js.get "name" req_body in
     let email := Js.get "email" req_body in
     let phone := Js.get "phone" req_body in
     let password := Js.get "password" req_body in
     (* Special case for admin *)
     if Js.is_string email admin_email then
       ret (res_status_json 400
              (error_body (Js.Str "This email cannot be used for registration")))
     else
       (* Generate unique passphrase *)
       passphrase <- freshPassphrase ;;
       (* Create user *)
       user <- create name email phone password passphrase ;;
       token <- issueToken (_id (fields user)) ;;
       ret (res_status_json 201 (registered_body (fields user) passphrase token)))
    (fun error =>
       res_status_json 400
         (error_body (Js.or_else (message error)
                                 (Js.Str "Failed to create account")))).

(** The two success literals of [loginUser]. *)
Definition admin_login_body : Js.value :=
  Js.Object
    [("status", Js.Str "success");
     ("data", Js.Object
        [("_id", Js.Str "admin");
         ("name", Js.Str "Admin");
         ("email", Js.Str "admin@zamanix.com");
         ("token", Js.Str "admin_token")])].

Definition user_login_body (user : UserFields) (token : string) : Js.value :=
  Js.Object
    [("status", Js.Str "success");
     ("data", Js.Object
        [("_id", Js.Str (_id user));
         ("name", Js.Str (u_name user));
         ("email", Js.Str (u_email user));
         ("phone", Js.Str (u_phone user));
         ("token", Js.Str token)])].

Definition invalid_credentials : Response :=
  res_status_json 401 (error_body (Js.Str "Invalid email or password")).

Definition invalid_passphrase : Response :=
  res_status_json 401 (error_body (Js.Str "Invalid passphrase")).

Definition server_error : Response :=
  res_status_json 500 (error_body (Js.Str "Server error occurred")).

(** [email === 'admin@zamanix.com' && password === 'zamanix_admin'] *)
Definition is_admin_login (email password : Js.value) : bool :=
  Js.is_string email admin_email && Js.is_string password admin_password.

(** [passphrase && !user.verifyPassphrase(passphrase)]: the right
    operand is evaluated only when the left one is truthy. *)
Definition passphrase_rejected (user : UserDoc) (passphrase : Js.value) : M bool :=
  if Js.truthy passphrase then
    ok <- verifyPassphrase user passphrase ;;
    ret (negb ok)
  else ret false.

(** [loginUser]: [req.body] in, the response sent out. *)
Definition loginUser (req_body : Js.value) : World -> Response * World :=
  try_catch
    (let email := Js.get "email" req_body in
     let password := Js.get "password" req_body in
     let passphrase := Js.get "passphrase" req_body in
     (* Special case for admin *)
     if is_admin_login email password then
       ret (res_json admin_login_body)
     else
       (* Find user by email *)
       found <- findOne email ;;
       match found with
       | None => ret invalid_credentials
       | Some user =>
           (* Check password *)
           isPasswordValid <- matchPassword user password ;;
           if negb isPasswordValid then ret invalid_credentials
           else
             (* Check passphrase if provided *)
             rejected <- passphrase_rejected user passphrase ;;
             if rejected then ret invalid_passphrase
             else
               token <- issueToken (_id (fields user)) ;;
               ret (res_json (user_login_body (fields user) token))
       end)
    (fun _ => server_error).

End Controllers.

(** Request bodies as the client sends them. *)
Definition login_request (email password passphrase : Js.value) : Js.value :=
  Js.Object [("email", email); ("password", password); ("passphrase", passphrase)].

(** A login request whose body has no [passphrase] property at all. *)
Definition login_request_without_passphrase (email password : Js.value) : Js.value :=
  Js.Object [("email", email); ("password", password)].

Definition register_request (name email phone password : Js.value) : Js.value :=
  Js.Object [("name", name); ("email", email); ("phone", phone);
             ("password", password)].

(** Whether a trace contains a passphrase verification, a store lookup. *)
Definition is_verification (ev : Event) : bool :=
  match ev with EvVerifyPassphrase _ _ => true | _ => false end.

Definition is_store_access (ev : Event) : bool :=
  match ev with
  | EvFindOne _ | EvCreate _ _ _ _ _ => true
  | _ => false
  end.

(* ================================================================== *)
(** * [src/components/LoginForm.tsx] *)
(* ================================================================== *)

Module Client.

(** The [formData] state object. *)
Record FormData : Type := mkFormData
  { name : string;
    email : string;
    password : string;
    phone : string;
    passphrase : string }.

(** The [useState] cells of the component. *)
Record State : Type := mkState
  { isSignup : bool;
    showPassphrasePopup : bool;
    formData : FormData;
    generatedPassphrase : string;
    error : string;
    success : string;
    loading : bool;
    tempLoginData : option (string * string) }.

Definition empty_form : FormData := mkFormData "" "" "" "" "".

(** The state of a freshly mounted form. *)
Definition initial : State :=
  mkState false false empty_form "" "" "" false None.

(** The [name] attributes of the inputs the component renders. *)
Inductive Field : Type := FName | FEmail | FPassword | FPhone | FPassphrase.

(** [{ ...formData, [field]: v }] *)
Definition set_field (f : Field) (v : string) (fd : FormData) : FormData :=
  match f with
  | FName => mkFormData v (email fd) (password fd) (phone fd) (passphrase fd)
  | FEmail => mkFormData (name fd) v (password fd) (phone fd) (passphrase fd)
  | FPassword => mkFormData (name fd) (email fd) v (phone fd) (passphrase fd)
  | FPhone => mkFormData (name fd) (email fd) (password fd) v (passphrase fd)
  | FPassphrase => mkFormData (name fd) (email fd) (password fd) (phone fd) v
  end.

(** What a handler does, in program order: state setters, calls into
    the user context ([login], [signup]) and timers. *)
Inductive Action : Type :=
| SetError (msg : string)
| SetSuccess (msg : string)
| SetLoading (b : bool)
| SetGeneratedPassphrase (p : string)
| SetTempLoginData (d : option (string * string))
| SetShowPassphrasePopup (b : bool)
| SetIsSignup (b : bool)
| SetFormData (fd : FormData)
| UpdateFormData (f : FormData -> FormData)
| CallSignup (name email password phone : string)
| CallLogin (email password : string) (passphrase : option string)
| SetTimeoutOnSuccess (ms : Z).

Definition apply (s : State) (a : Action) : State :=
  match a with
  | SetError m =>
      mkState (isSignup s) (showPassphrasePopup s) (formData s)
              (generatedPassphrase s) m (success s) (loading s) (tempLoginData s)
  | SetSuccess m =>
      mkState (isSignup s) (showPassphrasePopup s) (formData s)
              (generatedPassphrase s) (error s) m (loading s) (tempLoginData s)
  | SetLoading b =>
      mkState (isSignup s) (showPassphrasePopup s) (formData s)
              (generatedPassphrase s) (error s) (success s) b (tempLoginData s)
  | SetGeneratedPassphrase p =>
      mkState (isSignup s) (showPassphrasePopup s) (formData s)
              p (error s) (success s) (loading s) (tempLoginData s)
  | SetTempLoginData d =>
      mkState (isSignup s) (showPassphrasePopup s) (formData s)
              (generatedPassphrase s) (error s) (success s) (loading s) d
  | SetShowPassphrasePopup b =>
      mkState (isSignup s) b (formData s)
              (generatedPassphrase s) (error s) (success s) (loading s)
              (tempLoginData s)
  | SetIsSignup b =>
      mkState b (showPassphrasePopup s) (formData s)
              (generatedPassphrase s) (error s) (success s) (loading s)
              (tempLoginData s)
  | SetFormData fd =>
      mkState (isSignup s) (showPassphrasePopup s) fd
              (generatedPassphrase s) (error s) (success s) (loading s)
              (tempLoginData s)
  | UpdateFormData f =>
      mkState (isSignup s) (showPassphrasePopup s) (f (formData s))
              (generatedPassphrase s) (error s) (success s) (loading s)
              (tempLoginData s)
  | CallSignup _ _ _ _ | CallLogin _ _ _ | SetTimeoutOnSuccess _ => s
  end.

(** The state after a handler ran, and every state it went through. *)
Definition run (s : State) (acts : list Action) : State :=
  fold_left apply acts s.

Fixpoint states_through (s : State) (acts : list Action) : list State :=
  match acts with
  | [] => []
  | a :: rest => apply s a :: states_through (apply s a) rest
  end.

(** [!str] on a string. *)
Definition blank (s : string) : bool := String.eqb s "".

(** What a resolved context call is tested for, [if (success)]. *)
Definition succeeded (reply : Js.value) : bool := Js.truthy reply.

(** [handleSubmit], run on the state [s] of the render that attached
    it; [reply] is how the awaited context call, if one is made,
    settles. *)
Definition handleSubmit (s : State) (reply : Outcome Js.value) : list Action :=
  let fd := formData s in
  [SetError ""; SetSuccess ""; SetLoading true] ++
  (if isSignup s then
     if blank (name fd) || blank (email fd) || blank (password fd)
        || blank (phone fd)
     then [SetError "All fields are required"; SetLoading false]
     else
       CallSignup (name fd) (email fd) (password fd) (phone fd) ::
       match reply with
       | Returned v =>
           if succeeded v then
             [SetSuccess "Account created successfully! Please save your passphrase:";
              SetGeneratedPassphrase (passphrase fd);
              SetTimeoutOnSuccess 5000]
           else [SetError "Failed to create account"]
       | Thrown _ => [SetError "An unexpected error occurred"]
       end
   else
     if blank (email fd) || blank (password fd)
     then [SetError "Email and password are required"; SetLoading false]
     else
       if String.eqb (email fd) admin_email then
         CallLogin (email fd) (password fd) None ::
         match reply with
         | Returned v =>
             if succeeded v then
               [SetSuccess "Login successful!"; SetTimeoutOnSuccess 1500]
             else [SetError "Invalid credentials"]
         | Thrown _ => [SetError "An unexpected error occurred"]
         end
       else
         (* Store login data and show passphrase popup *)
         [SetTempLoginData (Some (email fd, password fd));
          SetShowPassphrasePopup true])
  ++ [SetLoading false].

(** [handlePassphraseSubmit]. *)
Definition handlePassphraseSubmit (s : State) (reply : Outcome Js.value)
  : list Action :=
  match tempLoginData s with
  | None => []
  | Some (e, p) =>
      [SetLoading true; SetError ""] ++
      CallLogin e p (Some (passphrase (formData s))) ::
      match reply with
      | Returned v =>
          if succeeded v then
            [SetSuccess "Login successful!"; SetTimeoutOnSuccess 1500]
          else [SetError "Invalid passphrase"]
      | Thrown _ => [SetError "An unexpected error occurred"]
      end
      ++ [SetLoading false]
  end.

(** [handleInputChange]. *)
Definition handleInputChange (s : State) (f : Field) (v : string) : list Action :=
  [SetFormData (set_field f v (formData s)); SetError ""; SetSuccess ""].

(** The close button of the passphrase popup. *)
Definition dismissPopup : list Action :=
  [SetShowPassphrasePopup false; SetTempLoginData None;
   UpdateFormData (set_field FPassphrase "")].

(** The signup/login toggle below the form. *)
Definition toggleMode (s : State) : list Action :=
  [SetIsSignup (negb (isSignup s)); SetError ""; SetSuccess "";
   SetGeneratedPassphrase ""; SetFormData empty_form].

(** Which inputs a render shows: the popup has the passphrase input
    alone; the form has email and password, and name and phone in
    signup mode. *)
Definition rendered (s : State) (f : Field) : bool :=
  if showPassphrasePopup s then
    match f with FPassphrase => true | _ => false end
  else
    match f with
    | FEmail | FPassword => true
    | FName | FPhone => isSignup s
    | FPassphrase => false
    end.

(** The passphrase box under the success message of the form:
    [{success && (... {generatedPassphrase && (<div>...</div>)})}]. *)
Definition passphrase_box (s : State) : option string :=
  if showPassphrasePopup s then None
  else if blank (success s) then None
  else if blank (generatedPassphrase s) then None
  else Some (generatedPassphrase s).

(** One user interaction, with the handler the render attached to it. *)
Inductive step : State -> State -> Prop :=
| step_submit s reply :
    showPassphrasePopup s = false ->
    step s (run s (handleSubmit s reply))
| step_passphrase_submit s reply :
    showPassphrasePopup s = true ->
    step s (run s (handlePassphraseSubmit s reply))
| step_input s f v :
    rendered s f = true ->
    step s (run s (handleInputChange s f v))
| step_dismiss s :
    showPassphrasePopup s = true ->
    step s (run s dismissPopup)
| step_toggle s :
    showPassphrasePopup s = false ->
    step s (run s (toggleMode s)).

Inductive reachable : State -> Prop :=
| reach_initial : reachable initial
| reach_step s s' : reachable s -> step s s' -> reachable s'.

Definition is_login_call (a : Action) : bool :=
  match a with CallLogin _ _ _ => true | _ => false end.

Definition opens_popup (a : Action) : bool :=
  match a with SetShowPassphrasePopup true => true | _ => false end.

End Client.

(* ================================================================== *)
(** * [server/index.js] *)
(* ================================================================== *)

Module Boot.

(** What the process does while it starts, in order. *)
Inductive Event : Type :=
| UseMiddleware (name : string)     (* app.use(cors()) and the like *)
| MountRoute (path : string)        (* app.get(path, ...) *)
| MongooseConnect                   (* mongoose.connect(...) is called *)
| Connected                         (* ... and resolves *)
| ConnectionError                   (* ... or rejects *)
| Retrying (remaining : nat)        (* the "Retrying connection" log line *)
| Sleep (ms : Q)                    (* await of setTimeout(resolve, delay) *)
| CloudinaryConfig
| MountRouter (path : string)       (* app.use(path, router) *)
| Listen                            (* app.listen(PORT, ...) *)
| InstallSignalHandlers
| Exit (code : Z).                  (* process.exit(code) *)

(** [connectDB(retries, delay)].  [connects k] tells whether the
    [k]-th call of [mongoose.connect] of the process resolves; [n]
    counts the calls made before this one.  [retries] counts down
    through the naturals, and [delay * 1.5] is taken in the rationals:
    from 5000 and for five multiplications the doubles of the source
    are exact. *)
Fixpoint connectDB (connects : nat -> bool) (n : nat) (retries : nat) (delay : Q)
  : bool * list Event :=
  if connects n then (true, [MongooseConnect; Connected])
  else
    match retries with
    | S retries' =>
        let '(ok, t) := connectDB connects (S n) retries' (delay * (3 # 2)) in
        (ok, MongooseConnect :: ConnectionError :: Retrying retries
               :: Sleep delay :: t)
    | O => (false, [MongooseConnect; ConnectionError])
    end.

(** The defaults of [connectDB = async (retries = 5, delay = 5000)]. *)
Definition default_retries : nat := 5.
Definition default_delay : Q := 5000.

(** [initializeApp]; [production] is [NODE_ENV === 'production']. *)
Definition initializeApp (connects : nat -> bool) (production : bool)
  : list Event :=
  let '(dbConnected, t) := connectDB connects 0 default_retries default_delay in
  if negb dbConnected then
    (* throw new Error(...), caught at the end of the function *)
    t ++ [Exit 1]
  else
    t ++ [CloudinaryConfig;
          (* API Routes *)
          MountRouter "/api/blogs";
          MountRouter "/api/users"]
      ++ (if production
          then [UseMiddleware "express.static"; MountRoute "*"]
          else [])
      ++ [UseMiddleware "notFound";
          UseMiddleware "errorHandler";
          Listen;
          InstallSignalHandlers].

(** The module, top to bottom. *)
Definition main (connects : nat -> bool) (production : bool) : list Event :=
  [UseMiddleware "cors";
   UseMiddleware "express.json";
   UseMiddleware "express.urlencoded";
   MountRoute "/api/health"]
  ++ initializeApp connects production.

Definition is_attempt (e : Event) : bool :=
  match e with MongooseConnect => true | _ => false end.

Definition is_serving (e : Event) : bool :=
  match e with MountRouter _ | Listen => true | _ => false end.

Definition is_exit (e : Event) : bool :=
  match e with Exit _ => true | _ => false end.

Definition attempts (t : list Event) : nat := length (filter is_attempt t).

Fixpoint sleeps (t : list Event) : list Q :=
  match t with
  | [] => []
  | Sleep ms :: rest => ms :: sleeps rest
  | _ :: rest => sleeps rest
  end.

(** A delay multiplied [k] times by 1.5, as the recursive calls do. *)
Fixpoint backoff_from (delay : Q) (k : nat) : Q :=
  match k with
  | O => delay
  | S k' => backoff_from (delay * (3 # 2)) k'
  end.

(** The delay before the [k]-th retry of a start. *)
Definition backoff (k : nat) : Q := backoff_from default_delay k.

(** The same delays, in milliseconds. *)
Definition backoff_ms : list Q := [5000; 7500; 11250; 16875; 50625 # 2].

(** Whether a rational is a binary64 number of the normal range: an
    integer below 2^53 over a power of two. *)
Fixpoint power_of_two (p : positive) : bool :=
  match p with
  | xH => true
  | xO p' => power_of_two p'
  | xI _ => false
  end.

Definition exact_double (q : Q) : bool :=
  let r := Qred q in
  (Z.abs (Qnum r) <? 2 ^ 53)%Z && power_of_two (Qden r).

(** Whether one of the six calls a start can make resolves. *)
Definition database_up (connects : nat -> bool) : bool :=
  existsb connects (seq 0 (S default_retries)).

End Boot.

(* ================================================================== *)
(** * A concrete credential store *)
(* ================================================================== *)

(** Modelled from the spec: [models/User.js], [utils/generateToken.js]
    and [utils/generatePassphrase.js] are not part of the sources read
    here.  The store below follows section 3 of the specification: one
    record per user, email unique and case-normalised, the two secrets
    kept in a form that supports verification.  It instantiates
    [Collaborators] where a statement needs a concrete store; nothing
    proved for every [Collaborators] depends on it. *)
Module PlainStore.

Record Doc : Type := mkDoc
  { doc_fields : UserFields;
    doc_password : string;
    doc_passphrase : string }.

Definition lower_ascii (c : ascii) : ascii :=
  let n := nat_of_ascii c in
  if (65 <=? n)%nat && (n <=? 90)%nat then ascii_of_nat (n + 32) else c.

Fixpoint lowercase (s : string) : string :=
  match s with
  | EmptyString => EmptyString
  | String c rest => String (lower_ascii c) (lowercase rest)
  end.

Fixpoint lookup (e : string) (st : list Doc) : option Doc :=
  match st with
  | [] => None
  | d :: rest =>
      if String.eqb (u_email (doc_fields d)) e then Some d else lookup e rest
  end.

Definition findOne (st : list Doc) (q : Js.value) : Outcome (option Doc) :=
  match q with
  | Js.Str e => Returned (lookup e st)
  | _ => Returned None
  end.

Definition create (st : list Doc) (name email phone password : Js.value)
           (passphrase : string) : Outcome Doc * list Doc :=
  match name, email, phone, password with
  | Js.Str n, Js.Str e, Js.Str ph, Js.Str pw =>
      let e' := lowercase e in
      match lookup e' st with
      | Some _ =>
          (Thrown (mkError (Js.Str "E11000 duplicate key error")), st)
      | None =>
          let d := mkDoc (mkUserFields ("user:" ++ e') n e' ph) pw passphrase in
          (Returned d, (st ++ [d])%list)
      end
  | _, _, _, _ =>
      (Thrown (mkError (Js.Str "User validation failed")), st)
  end.

Definition matches (secret : string) (candidate : Js.value) : Outcome bool :=
  Returned (Js.is_string candidate secret).

(** The random source is the list of phrases still to be drawn. *)
Definition draw (phrases : list string) : Outcome string * list string :=
  match phrases with
  | p :: rest => (Returned p, rest)
  | [] => (Thrown (mkError (Js.Str "no entropy")), [])
  end.

#[export] Instance collaborators : Collaborators :=
  {| Store := list Doc;
     Entropy := list string;
     UserDoc := Doc;
     fields := doc_fields;
     User_findOne := findOne;
     User_create := create;
     user_matchPassword := fun d => matches (doc_password d);
     user_verifyPassphrase := fun d => matches (doc_passphrase d);
     generateToken := fun id => Returned ("jwt:" ++ id);
     generatePassphrase := draw |}.

Definition world (st : list Doc) (phrases : list string) : World :=
  mkWorld st phrases [].

(** A user of the store, and a record held under the reserved email. *)
Definition alice : Doc :=
  mkDoc (mkUserFields "user:alice@example.com" "Alice" "alice@example.com" "555-0100")
        "correct horse" "alpha bravo charlie".

Definition alice_email : Js.value := Js.Str "alice@example.com".
Definition alice_password : Js.value := Js.Str "correct horse".
Definition alice_token : string := "jwt:user:alice@example.com".

Definition squatter : Doc :=
  mkDoc (mkUserFields "user:admin@zamanix.com" "Mallory" "admin@zamanix.com" "555-0199")
        "hunter2" "delta echo foxtrot".

End PlainStore.

(* ================================================================== *)
(** * The rest of the controller: [getUserProfile] *)
(* ================================================================== *)

(** The calls a handler added to the trace of the world it ran in. *)
Definition new_calls `{Collaborators} (before after : World) : list Event :=
  skipn (length (w_trace before)) (w_trace after).

Definition is_create (ev : Event) : bool :=
  match ev with EvCreate _ _ _ _ _ => true | _ => false end.

Section Profile.
Context `{C : Collaborators}.

(** [await User.findById(id)], one more call into [models/User.js]. *)
Variable User_findById : Store -> Js.value -> Outcome (option UserDoc).

(** The object literal of the 200 response of [getUserProfile]. *)
Definition profile_body (user : UserFields) : Js.value :=
  Js.Object
    [("status", Js.Str "success");
     ("data", Js.Object
        [("_id", Js.Str (_id user));
         ("name", Js.Str (u_name user));
         ("email", Js.Str (u_email user));
         ("phone", Js.Str (u_phone user))])].

Definition user_not_found : Response :=
  res_status_json 404 (error_body (Js.Str "User not found")).

(** [getUserProfile].  [req_user] is [req.user], which the route's
    middleware sets; reading [._id] off [undefined] or [null] throws a
    TypeError that names which of the two it was.  The handler has no
    [try]: what is thrown goes to [asyncHandler], which hands it to the
    error middleware, and no response is sent here. *)
Definition getUserProfile (req_user : Js.value) (st : Store) : Outcome Response :=
  match req_user with
  | Js.Undefined =>
      Thrown (mkError (Js.Str "Cannot read properties of undefined (reading '_id')"))
  | Js.Null =>
      Thrown (mkError (Js.Str "Cannot read properties of null (reading '_id')"))
  | _ =>
      match User_findById st (Js.get "_id" req_user) with
      | Thrown e => Thrown e
      | Returned (Some user) => Returned (res_json (profile_body (fields user)))
      | Returned None => Returned user_not_found
      end
  end.

End Profile.

(* ================================================================== *)
(** * A [req.body] that is not there *)
(* ================================================================== *)

(** Whether [const { email, password, passphrase } = v] goes through:
    destructuring throws a TypeError on [undefined] and on [null], and
    reads every property of anything else. *)
Definition destructurable (v : Js.value) : bool :=
  match v with
  | Js.Undefined | Js.Null => false
  | _ => true
  end.

Section AnyBody.
Context `{C : Collaborators}.

(** [loginUser] on whatever [req.body] is.  The destructuring is the
    first statement of the [try]: when it throws, no call has been made
    and the [catch] answers as it does every throw; when it goes
    through, the rest is [loginUser] above. *)
Definition loginUser_any_body (req_body : Js.value) : World -> Response * World :=
  if destructurable req_body then loginUser req_body
  else fun w => (server_error, w).

End AnyBody.

(* ================================================================== *)
(** * The rest of the form: reading a field back *)
(* ================================================================== *)

Module ClientView.
Import Client.

(** [formData[field]] *)
Definition get_field (f : Field) (fd : FormData) : string :=
  match f with
  | FName => name fd
  | FEmail => email fd
  | FPassword => password fd
  | FPhone => phone fd
  | FPassphrase => passphrase fd
  end.

Definition field_eqb (f g : Field) : bool :=
  match f, g with
  | FName, FName | FEmail, FEmail | FPassword, FPassword
  | FPhone, FPhone | FPassphrase, FPassphrase => true
  | _, _ => false
  end.

(** Calls into the user context, and timers. *)
Definition is_context_call (a : Action) : bool :=
  match a with
  | CallSignup _ _ _ _ | CallLogin _ _ _ => true
  | _ => false
  end.

Definition is_timer (a : Action) : bool :=
  match a with SetTimeoutOnSuccess _ => true | _ => false end.


End ClientView.

(* ================================================================== *)
(** * The rest of [server/index.js]: health check and shutdown *)
(* ================================================================== *)

Module Ops.

(** What the health route reads from the process when it is hit. *)
Record Probe : Type := mkProbe
  { readyState : Z;                 (* mongoose.connection.readyState *)
    ping : Outcome unit;            (* await mongoose.connection.db.admin().ping() *)
    timestamp : Js.value;           (* new Date().toISOString() *)
    uptime : Js.value;              (* process.uptime() *)
    host : Js.value;                (* mongoose.connection.host *)
    environment : Js.value;         (* process.env.NODE_ENV *)
    memory : Js.value }.            (* process.memoryUsage() *)

(** The handler of [GET /api/health]. *)
Definition health (p : Probe) : Response :=
  let dbConnected := Z.eqb (readyState p) 1 in
  (* Perform a simple DB operation to verify connection *)
  let dbOperational :=
    match ping p with
    | Returned _ => true
    | Thrown _ => false
    end in
  let status := if dbConnected && dbOperational then "healthy" else "unhealthy" in
  let statusCode := if String.eqb status "healthy" then 200%Z else 503%Z in
  res_status_json statusCode
    (Js.Object
       [("status", Js.Str status);
        ("timestamp", timestamp p);
        ("uptime", uptime p);
        ("database", Js.Object
           [("connected", Js.Bool dbConnected);
            ("operational", Js.Bool dbOperational);
            ("host", host p);
            ("state", Js.Number (readyState p))]);
        ("environment", environment p);
        ("memory", memory p)]).

(** What the shutdown hook does, in order. *)
Inductive ShutdownEvent : Type :=
| ServerClose                       (* await server.close() *)
| MongooseClose                     (* await mongoose.connection.close(false) *)
| ProcessExit (code : Z).           (* process.exit(code) *)

(** [shutdown], given how the two closes settle. *)
Definition shutdown (serverClose mongooseClose : Outcome unit)
  : list ShutdownEvent :=
  ServerClose ::
  match serverClose with
  | Thrown _ => [ProcessExit 1]
  | Returned _ =>
      MongooseClose ::
      match mongooseClose with
      | Thrown _ => [ProcessExit 1]
      | Returned _ => [ProcessExit 0]
      end
  end.

(** The [unhandledRejection] listener. *)
Definition onUnhandledRejection (production : bool)
           (serverClose mongooseClose : Outcome unit) : list ShutdownEvent :=
  if production then shutdown serverClose mongooseClose else [].

Definition exit_codes (t : list ShutdownEvent) : list Z :=
  flat_map (fun e => match e with ProcessExit c => [c] | _ => [] end) t.

Definition closes_database (t : list ShutdownEvent) : bool :=
  existsb (fun e => match e with MongooseClose => true | _ => false end) t.

End Ops.

Module BootOrder.
Import Boot.

(** The time a start spends asleep between calls. *)
Definition total_sleep (t : list Event) : Q := fold_right Qplus 0 (sleeps t).

(** [a] happens, and later [b] does. *)
Definition before (a b : Event) (t : list Event) : Prop :=
  exists l1 l2 l3, t = (l1 ++ a :: l2 ++ b :: l3)%list.

Definition is_mount (e : Event) : bool :=
  match e with
  | MountRoute _ | MountRouter _ | UseMiddleware _ => true
  | _ => false
  end.

End BootOrder.

(** Modelled from the spec: [User.findById] of [models/User.js], over
    the concrete store above; a document is found under its [_id]. *)
Module PlainProfile.
Import PlainStore.

Fixpoint lookup_id (id : string) (st : list Doc) : option Doc :=
  match st with
  | [] => None
  | d :: rest =>
      if String.eqb (_id (doc_fields d)) id then Some d else lookup_id id rest
  end.

Definition findById (st : list Doc) (q : Js.value) : Outcome (option Doc) :=
  match q with
  | Js.Str id => Returned (lookup_id id st)
  | Js.Undefined | Js.Null => Returned None
  | _ => Thrown (mkError (Js.Str "Cast to ObjectId failed"))
  end.

End PlainProfile.

(** Modelled from the spec: the concrete store above behind a database
    that can be out of reach and a token issuer that can be left
    without its secret, the two "unexpected failures" of section 4.1. *)
Module FaultyStore.
Import PlainStore.

Definition offline_error : JsError := mkError (Js.Str "connection lost").
Definition secret_error : JsError :=
  mkError (Js.Str "secretOrPrivateKey must have a value").

Definition collaborators (offline no_secret : bool) : Collaborators :=
  {| Store := list Doc;
     Entropy := list string;
     UserDoc := Doc;
     fields := doc_fields;
     User_findOne := fun st q =>
       if offline then Thrown offline_error else findOne st q;
     User_create := fun st n e ph pw pp =>
       if offline then (Thrown offline_error, st) else create st n e ph pw pp;
     user_matchPassword := fun d => matches (doc_password d);
     user_verifyPassphrase := fun d => matches (doc_passphrase d);
     generateToken := fun id =>
       if no_secret then Thrown secret_error else Returned ("jwt:" ++ id);
     generatePassphrase := draw |}.

Definition world (offline no_secret : bool) (st : list Doc) (phrases : list string)
  : @World (collaborators offline no_secret) :=
  @mkWorld (collaborators offline no_secret) st phrases [].

End FaultyStore.

(** The answer [registerUser] gives to a thrown error. *)
Definition registration_failed (e : JsError) : Response :=
  res_status_json 400
    (error_body (if Js.truthy (message e) then message e
                 else Js.Str "Failed to create account")).

(* ================================================================== *)
(** * Facts about JavaScript values *)
(* ================================================================== *)

Lemma is_string_true (v : Js.value) (lit : string) :
  Js.is_string v lit = true <-> v = Js.Str lit.
Proof.
  destruct v; simpl; split; intro H; try discriminate.
  - apply String.eqb_eq in H. now subst.
  - injection H as ->. apply String.eqb_refl.
Qed.

Lemma is_string_false (v : Js.value) (lit : string) :
  Js.is_string v lit = false <-> v <> Js.Str lit.
Proof.
  split.
  - intros H E. apply is_string_true in E. congruence.
  - intro H. destruct (Js.is_string v lit) eqn:E; [|reflexivity].
    apply is_string_true in E. contradiction.
Qed.

(* ================================================================== *)
(** * The login and registration controllers *)
(* ================================================================== *)

Ltac unfold_handler :=
  unfold loginUser, registerUser, passphrase_rejected, try_catch, bind, ret,
    findOne, matchPassword, verifyPassphrase, issueToken, freshPassphrase,
    create, call, record.

Section ControllerFacts.
Context `{C : Collaborators}.

Lemma is_admin_login_true (email password : Js.value) :
  is_admin_login email password = true <->
  email = Js.Str admin_email /\ password = Js.Str admin_password.
Proof.
  unfold is_admin_login. rewrite andb_true_iff, !is_string_true. tauto.
Qed.

Lemma not_admin_email (email password : Js.value) :
  email <> Js.Str admin_email -> is_admin_login email password = false.
Proof.
  intro H. unfold is_admin_login.
  apply is_string_false in H. now rewrite H.
Qed.

Lemma not_admin_password (email password : Js.value) :
  password <> Js.Str admin_password -> is_admin_login email password = false.
Proof.
  intro H. unfold is_admin_login.
  apply is_string_false in H. rewrite H. apply andb_false_r.
Qed.

(** The bypass branch answers at once and leaves the world as it was. *)
Lemma loginUser_bypass (req_body : Js.value) (w : World) :
  is_admin_login (Js.get "email" req_body) (Js.get "password" req_body) = true ->
  loginUser req_body w = (res_json admin_login_body, w).
Proof.
  intro H. unfold_handler. now rewrite H.
Qed.

(** Past the bypass, the first thing a login does is the lookup. *)
Lemma loginUser_not_found (req_body : Js.value) (w : World) :
  is_admin_login (Js.get "email" req_body) (Js.get "password" req_body) = false ->
  User_findOne (w_store w) (Js.get "email" req_body) = Returned None ->
  loginUser req_body w
  = (invalid_credentials, record (EvFindOne (Js.get "email" req_body)) w).
Proof.
  intros H Hf. unfold_handler. rewrite H. simpl. now rewrite Hf.
Qed.

Lemma loginUser_wrong_password (req_body : Js.value) (w : World) (user : UserDoc) :
  is_admin_login (Js.get "email" req_body) (Js.get "password" req_body) = false ->
  User_findOne (w_store w) (Js.get "email" req_body) = Returned (Some user) ->
  user_matchPassword user (Js.get "password" req_body) = Returned false ->
  loginUser req_body w
  = (invalid_credentials,
     record (EvMatchPassword (_id (fields user)) (Js.get "password" req_body))
            (record (EvFindOne (Js.get "email" req_body)) w)).
Proof.
  intros H Hf Hm. unfold_handler. rewrite H. simpl. rewrite Hf. simpl.
  now rewrite Hm.
Qed.

(** Every lookup path starts by recording the query. *)
Lemma loginUser_lookup_first (req_body : Js.value) (w : World) :
  is_admin_login (Js.get "email" req_body) (Js.get "password" req_body) = false ->
  exists rest,
    w_trace (snd (loginUser req_body w))
    = (w_trace w ++ EvFindOne (Js.get "email" req_body) :: rest)%list.
Proof.
  intro H. unfold_handler. rewrite H. simpl.
  destruct (User_findOne _ _) as [[user|]|]; simpl;
    [|exists []; reflexivity|exists []; reflexivity].
  destruct (user_matchPassword _ _) as [[|]|]; simpl;
    [|eexists; rewrite <- app_assoc; reflexivity
     |eexists; rewrite <- app_assoc; reflexivity].
  destruct (Js.truthy _); simpl.
  - destruct (user_verifyPassphrase _ _) as [[|]|]; simpl;
      [destruct (generateToken _); simpl| |];
      eexists; rewrite <- ?app_assoc; simpl; reflexivity.
  - destruct (generateToken _); simpl;
      eexists; rewrite <- ?app_assoc; simpl; reflexivity.
Qed.

(** A 200 past the bypass needs a record and an accepted password. *)
Lemma loginUser_200_needs_match (req_body : Js.value) (w : World) :
  is_admin_login (Js.get "email" req_body) (Js.get "password" req_body) = false ->
  statusCode (fst (loginUser req_body w)) = 200%Z ->
  exists user token,
    User_findOne (w_store w) (Js.get "email" req_body) = Returned (Some user) /\
    user_matchPassword user (Js.get "password" req_body) = Returned true /\
    generateToken (_id (fields user)) = Returned token /\
    fst (loginUser req_body w) = res_json (user_login_body (fields user) token).
Proof.
  intro H. unfold_handler. rewrite H. simpl.
  destruct (User_findOne _ _) as [[user|]|]; simpl; try (intro; discriminate).
  destruct (user_matchPassword _ _) as [[|]|] eqn:Hm; simpl;
    try (intro; discriminate).
  destruct (Js.truthy _); simpl.
  - destruct (user_verifyPassphrase _ _) as [[|]|]; simpl; try (intro; discriminate).
    destruct (generateToken _) eqn:Ht; simpl; try (intro; discriminate).
    intros _. exists user, a. repeat split; assumption || reflexivity.
  - destruct (generateToken _) eqn:Ht; simpl; try (intro; discriminate).
    intros _. exists user, a. repeat split; assumption || reflexivity.
Qed.

End ControllerFacts.

Section AuthService.
Context `{C : Collaborators}.

(** C1 (as amended).  A login whose email is ['admin@zamanix.com']:
    with the password ['zamanix_admin'] it answers 200 with identity
    [_id: 'admin'] and token ['admin_token'] and leaves the world
    untouched, so no collaborator, and in particular no store lookup,
    is called.  With any other password the bypass is not taken: the
    first thing the request does is the store lookup under that email;
    it is rejected with 401 'Invalid email or password' when the store
    holds no record under the email or the record's password check
    refuses the password, and it can answer 200 only when the store
    holds such a record and its password check accepts. *)
Theorem admin_login_bypass_or_lookup (req_body : Js.value) (w : World) :
  Js.get "email" req_body = Js.Str admin_email ->
  (Js.get "password" req_body = Js.Str admin_password ->
     loginUser req_body w = (res_json admin_login_body, w) /\
     statusCode (res_json admin_login_body) = 200%Z /\
     Js.get "status" admin_login_body = Js.Str "success" /\
     Js.get "_id" (Js.get "data" admin_login_body) = Js.Str "admin" /\
     Js.get "token" (Js.get "data" admin_login_body) = Js.Str "admin_token")
  /\
  (Js.get "password" req_body <> Js.Str admin_password ->
     (exists rest,
         w_trace (snd (loginUser req_body w))
         = (w_trace w ++ EvFindOne (Js.Str admin_email) :: rest)%list) /\
     (User_findOne (w_store w) (Js.Str admin_email) = Returned None ->
      fst (loginUser req_body w) = invalid_credentials) /\
     (forall user,
         User_findOne (w_store w) (Js.Str admin_email) = Returned (Some user) ->
         user_matchPassword user (Js.get "password" req_body) = Returned false ->
         fst (loginUser req_body w) = invalid_credentials) /\
     (statusCode (fst (loginUser req_body w)) = 200%Z ->
      exists user,
        User_findOne (w_store w) (Js.Str admin_email) = Returned (Some user) /\
        user_matchPassword user (Js.get "password" req_body) = Returned true)).
Proof.
  intro He. split.
  - intro Hp. split; [|repeat split].
    apply loginUser_bypass. apply is_admin_login_true. now split.
  - intro Hp.
    pose proof (not_admin_password (Js.get "email" req_body) _ Hp) as Hb.
    repeat split.
    + rewrite <- He. now apply loginUser_lookup_first.
    + intro Hf. rewrite <- He in Hf.
      now rewrite (loginUser_not_found _ _ Hb Hf).
    + intros user Hf Hm. rewrite <- He in Hf.
      now rewrite (loginUser_wrong_password _ _ _ Hb Hf Hm).
    + intro Hs. rewrite <- He.
      destruct (loginUser_200_needs_match _ _ Hb Hs) as (user & token & Hf & Hm & _).
      now exists user.
Qed.

(** C2.  Whatever else the request carries, registering the email
    ['admin@zamanix.com'] answers 400 with status 'error', and leaves
    the world untouched: no passphrase is drawn, nothing is created. *)
Theorem register_reserved_email (req_body : Js.value) (w : World) :
  Js.get "email" req_body = Js.Str admin_email ->
  let response := fst (registerUser req_body w) in
  statusCode response = 400%Z /\
  Js.get "status" (body response) = Js.Str "error" /\
  Js.get "message" (body response)
  = Js.Str "This email cannot be used for registration" /\
  snd (registerUser req_body w) = w.
Proof.
  intro He. unfold_handler. rewrite He. simpl. repeat split.
Qed.

(** C3.  For a stored user under a non-admin email, a login with the
    right password and no passphrase answers 200 with the user's
    summary and the token the issuer returns; the request looks the
    user up, checks the password, issues the token, and never calls
    the passphrase verification. *)
Theorem login_without_passphrase (req_body : Js.value) (w : World)
        (user : UserDoc) (token : string) :
  Js.get "email" req_body <> Js.Str admin_email ->
  Js.get "passphrase" req_body = Js.Undefined ->
  User_findOne (w_store w) (Js.get "email" req_body) = Returned (Some user) ->
  user_matchPassword user (Js.get "password" req_body) = Returned true ->
  generateToken (_id (fields user)) = Returned token ->
  let response := fst (loginUser req_body w) in
  let calls := [EvFindOne (Js.get "email" req_body);
                EvMatchPassword (_id (fields user)) (Js.get "password" req_body);
                EvGenerateToken (_id (fields user))] in
  response = res_json (user_login_body (fields user) token) /\
  statusCode response = 200%Z /\
  Js.get "status" (body response) = Js.Str "success" /\
  Js.get "token" (Js.get "data" (body response)) = Js.Str token /\
  w_trace (snd (loginUser req_body w)) = (w_trace w ++ calls)%list /\
  existsb is_verification calls = false.
Proof.
  intros He Hpp Hf Hm Ht.
  pose proof (not_admin_email _ (Js.get "password" req_body) He) as Hb.
  unfold_handler. rewrite Hb. simpl. rewrite Hf. simpl. rewrite Hm. simpl.
  rewrite Hpp. simpl. rewrite Ht. simpl.
  rewrite <- !app_assoc. repeat split.
Qed.

(** C4 (as amended).  For a stored user under a non-admin email, a
    login with the right password and a supplied passphrase that is not
    empty (truthy, which is what the code tests before it verifies) and
    that the stored passphrase check refuses answers 401 'Invalid
    passphrase', which is not the answer given to invalid
    credentials. *)
Theorem login_wrong_passphrase (req_body : Js.value) (w : World)
        (user : UserDoc) :
  Js.get "email" req_body <> Js.Str admin_email ->
  Js.truthy (Js.get "passphrase" req_body) = true ->
  User_findOne (w_store w) (Js.get "email" req_body) = Returned (Some user) ->
  user_matchPassword user (Js.get "password" req_body) = Returned true ->
  user_verifyPassphrase user (Js.get "passphrase" req_body) = Returned false ->
  let response := fst (loginUser req_body w) in
  response = invalid_passphrase /\
  statusCode response = 401%Z /\
  Js.get "status" (body response) = Js.Str "error" /\
  Js.get "message" (body response) = Js.Str "Invalid passphrase" /\
  response <> invalid_credentials.
Proof.
  intros He Hpp Hf Hm Hv.
  pose proof (not_admin_email _ (Js.get "password" req_body) He) as Hb.
  unfold_handler. rewrite Hb. simpl. rewrite Hf. simpl. rewrite Hm. simpl.
  rewrite Hpp. simpl. rewrite Hv. simpl.
  repeat split. discriminate.
Qed.

(** C5.  A login under an email the store does not hold and a login
    under a stored email with a password its check refuses (neither
    being the admin credential pair) get the same response: status
    401, status field 'error', message 'Invalid email or password'. *)
Theorem login_failures_indistinguishable
        (unknown : Js.value) (w1 : World)
        (mistaken : Js.value) (w2 : World) (user : UserDoc) :
  is_admin_login (Js.get "email" unknown) (Js.get "password" unknown) = false ->
  is_admin_login (Js.get "email" mistaken) (Js.get "password" mistaken) = false ->
  User_findOne (w_store w1) (Js.get "email" unknown) = Returned None ->
  User_findOne (w_store w2) (Js.get "email" mistaken) = Returned (Some user) ->
  user_matchPassword user (Js.get "password" mistaken) = Returned false ->
  fst (loginUser unknown w1) = fst (loginUser mistaken w2) /\
  statusCode (fst (loginUser unknown w1)) = 401%Z /\
  Js.get "status" (body (fst (loginUser unknown w1))) = Js.Str "error" /\
  Js.get "message" (body (fst (loginUser unknown w1)))
  = Js.Str "Invalid email or password".
Proof.
  intros Hb1 Hb2 Hf1 Hf2 Hm.
  rewrite (loginUser_not_found _ _ Hb1 Hf1).
  rewrite (loginUser_wrong_password _ _ _ Hb2 Hf2 Hm).
  repeat split.
Qed.

(** C6 (as amended).  Every login answered with status 200 carries a
    body [{status: 'success', data}].  For a stored user [data] has
    exactly the fields [_id, name, email, phone, token]; for the
    administrative sentinel it has exactly [_id, name, email, token]
    and no [phone]. *)
Theorem login_success_shape (req_body : Js.value) (w : World) :
  statusCode (fst (loginUser req_body w)) = 200%Z ->
  let response := fst (loginUser req_body w) in
  let data := Js.get "data" (body response) in
  Js.keys (body response) = ["status"; "data"] /\
  Js.get "status" (body response) = Js.Str "success" /\
  ((is_admin_login (Js.get "email" req_body) (Js.get "password" req_body) = true /\
    body response = admin_login_body /\
    Js.keys data = ["_id"; "name"; "email"; "token"] /\
    Js.has "phone" data = false)
   \/
   (is_admin_login (Js.get "email" req_body) (Js.get "password" req_body) = false /\
    (exists user token, body response = user_login_body (fields user) token) /\
    Js.keys data = ["_id"; "name"; "email"; "phone"; "token"] /\
    Js.has "phone" data = true)).
Proof.
  intro Hs.
  destruct (is_admin_login (Js.get "email" req_body) (Js.get "password" req_body))
    eqn:Hb.
  - rewrite (loginUser_bypass _ _ Hb). simpl. repeat split. left. repeat split.
  - destruct (loginUser_200_needs_match _ _ Hb Hs) as (user & token & _ & _ & _ & Hr).
    rewrite Hr. simpl. repeat split. right. repeat split.
    now exists user, token.
Qed.

(** C8.  A login whose passphrase is the empty string behaves as the
    same login without a passphrase: for a stored user and the right
    password both get the same 200 answer and make the same calls,
    none of which is a passphrase verification. *)
Theorem login_empty_passphrase (with_empty without : Js.value) (w : World)
        (user : UserDoc) (token : string) :
  Js.get "email" with_empty = Js.get "email" without ->
  Js.get "password" with_empty = Js.get "password" without ->
  Js.get "passphrase" with_empty = Js.Str "" ->
  Js.get "passphrase" without = Js.Undefined ->
  User_findOne (w_store w) (Js.get "email" with_empty) = Returned (Some user) ->
  user_matchPassword user (Js.get "password" with_empty) = Returned true ->
  generateToken (_id (fields user)) = Returned token ->
  loginUser with_empty w = loginUser without w /\
  statusCode (fst (loginUser with_empty w)) = 200%Z /\
  Js.get "status" (body (fst (loginUser with_empty w))) = Js.Str "success" /\
  exists calls,
    w_trace (snd (loginUser with_empty w)) = (w_trace w ++ calls)%list /\
    existsb is_verification calls = false.
Proof.
  intros He Hp Hpp1 Hpp2 Hf Hm Ht.
  destruct (is_admin_login (Js.get "email" with_empty)
                           (Js.get "password" with_empty)) eqn:Hb.
  - assert (Hb' := Hb). rewrite He, Hp in Hb'.
    rewrite (loginUser_bypass _ _ Hb), (loginUser_bypass _ _ Hb').
    repeat split. exists []. now rewrite app_nil_r.
  - assert (Hb' := Hb). rewrite He, Hp in Hb'.
    assert (Hf' := Hf). rewrite He in Hf'.
    assert (Hm' := Hm). rewrite Hp in Hm'.
    unfold_handler. rewrite Hb, Hb'. simpl. rewrite Hf, Hf'. simpl.
    rewrite Hm, Hm'. simpl. rewrite Hpp1, Hpp2. simpl. rewrite Ht. simpl.
    rewrite He, Hp. repeat split.
    eexists. rewrite <- !app_assoc. simpl. split; reflexivity.
Qed.

End AuthService.

(* ------------------------------------------------------------------ *)
(** ** The controllers on the concrete store *)
(* ------------------------------------------------------------------ *)

Module OnPlainStore.
Import PlainStore.

(** The admin pair on an empty store: answered without touching it. *)
Lemma admin_login_bypass_or_lookup_witness :
  loginUser (login_request (Js.Str admin_email) (Js.Str admin_password)
                           Js.Undefined)
            (world [] [])
  = (res_json admin_login_body, world [] []).
Proof.
  destruct (admin_login_bypass_or_lookup
              (login_request (Js.Str admin_email) (Js.Str admin_password)
                             Js.Undefined)
              (world [] []) eq_refl) as [Hpair _].
  exact (proj1 (Hpair eq_refl)).
Defined.

(** C1 as the specification words it fails: the reserved email with a
    password other than the admin one is let in when the store holds
    a record under that email whose password it is. *)
Lemma reserved_email_other_password_accepted :
  ~ (forall (C : Collaborators) (req_body : Js.value) (w : World),
        Js.get "email" req_body = Js.Str admin_email ->
        Js.get "password" req_body <> Js.Str admin_password ->
        statusCode (fst (loginUser req_body w)) <> 200%Z).
Proof.
  intro H.
  apply (H collaborators
           (login_request (Js.Str admin_email) (Js.Str "hunter2") Js.Undefined)
           (world [squatter] [])).
  - reflexivity.
  - discriminate.
  - reflexivity.
Qed.

(** Such a record is within reach of [registerUser] itself when the
    store normalises the case of emails, as section 3 of the
    specification has it: the guard compares the email as sent. *)
Example reserved_email_registered_in_upper_case :
  let request :=
    register_request (Js.Str "Mallory") (Js.Str "Admin@Zamanix.com")
                     (Js.Str "555-0199") (Js.Str "hunter2") in
  let '(response, w) := registerUser request (world [] ["delta echo foxtrot"]) in
  statusCode response = 201%Z /\
  w_store w = [squatter] /\
  statusCode
    (fst (loginUser (login_request (Js.Str admin_email) (Js.Str "hunter2")
                                   Js.Undefined) w))
  = 200%Z.
Proof. vm_compute. repeat split. Qed.

(** A registration and the logins that follow it. *)
Example register_then_login :
  let request :=
    register_request (Js.Str "Alice") (Js.Str "Alice@Example.com")
                     (Js.Str "555-0100") alice_password in
  let '(response, w) :=
    registerUser request (world [] ["alpha bravo charlie"; "golf hotel india"]) in
  statusCode response = 201%Z /\
  Js.get "passphrase" (Js.get "data" (body response)) = Js.Str "alpha bravo charlie" /\
  w_store w = [alice] /\
  fst (registerUser request w)
  = res_status_json 400 (error_body (Js.Str "E11000 duplicate key error")) /\
  statusCode (fst (loginUser (login_request alice_email alice_password
                                            (Js.Str "alpha bravo charlie")) w))
  = 200%Z /\
  fst (loginUser (login_request alice_email (Js.Str "wrong horse")
                                (Js.Str "alpha bravo charlie")) w)
  = invalid_credentials.
Proof. vm_compute. repeat split. Qed.

Lemma register_reserved_email_witness :
  let request :=
    register_request (Js.Str "Mallory") (Js.Str admin_email)
                     (Js.Str "555-0199") (Js.Str "hunter2") in
  let w := world [alice] ["delta echo foxtrot"] in
  statusCode (fst (registerUser request w)) = 400%Z /\
  snd (registerUser request w) = w.
Proof.
  intros request w.
  destruct (register_reserved_email request w eq_refl) as (Hs & _ & _ & Hw).
  split; assumption.
Defined.

Lemma login_without_passphrase_witness :
  let request := login_request_without_passphrase alice_email alice_password in
  fst (loginUser request (world [alice] []))
  = res_json (user_login_body (doc_fields alice) alice_token).
Proof.
  intro request.
  refine (proj1 (login_without_passphrase request (world [alice] []) alice
                   alice_token _ eq_refl eq_refl eq_refl eq_refl)).
  discriminate.
Defined.

Lemma login_wrong_passphrase_witness :
  let request :=
    login_request alice_email alice_password (Js.Str "alpha bravo delta") in
  fst (loginUser request (world [alice] [])) = invalid_passphrase.
Proof.
  intro request.
  refine (proj1 (login_wrong_passphrase request (world [alice] []) alice
                   _ eq_refl eq_refl eq_refl eq_refl)).
  discriminate.
Defined.

(** C4 as the specification words it fails: the empty string is a
    supplied passphrase, the stored check refuses it, and the login is
    answered 200, the check never being called. *)
Lemma empty_passphrase_refused_yet_accepted :
  ~ (forall (C : Collaborators) (req_body : Js.value) (w : World) (user : UserDoc),
        Js.get "email" req_body <> Js.Str admin_email ->
        Js.has "passphrase" req_body = true ->
        User_findOne (w_store w) (Js.get "email" req_body) = Returned (Some user) ->
        user_matchPassword user (Js.get "password" req_body) = Returned true ->
        user_verifyPassphrase user (Js.get "passphrase" req_body) = Returned false ->
        fst (loginUser req_body w) = invalid_passphrase).
Proof.
  intro H.
  specialize (H collaborators
                (login_request alice_email alice_password (Js.Str ""))
                (world [alice] []) alice).
  assert (Hr : fst (loginUser (login_request alice_email alice_password (Js.Str ""))
                              (world [alice] []))
               = invalid_passphrase).
  { apply H; [discriminate|reflexivity|reflexivity|reflexivity|reflexivity]. }
  discriminate Hr.
Qed.

Lemma login_failures_indistinguishable_witness :
  fst (loginUser (login_request (Js.Str "nobody@example.com") alice_password
                                Js.Undefined)
                 (world [alice] []))
  = fst (loginUser (login_request alice_email (Js.Str "wrong horse")
                                  Js.Undefined)
                   (world [alice] [])).
Proof.
  exact (proj1 (login_failures_indistinguishable
                  (login_request (Js.Str "nobody@example.com") alice_password
                                 Js.Undefined)
                  (world [alice] [])
                  (login_request alice_email (Js.Str "wrong horse") Js.Undefined)
                  (world [alice] []) alice
                  eq_refl eq_refl eq_refl eq_refl eq_refl)).
Defined.

(** C6 as the specification words it fails: the admin answer is a 200
    whose [data] has no [phone]. *)
Lemma admin_login_data_has_no_phone :
  ~ (forall (C : Collaborators) (req_body : Js.value) (w : World),
        statusCode (fst (loginUser req_body w)) = 200%Z ->
        Js.has "phone" (Js.get "data" (body (fst (loginUser req_body w)))) = true).
Proof.
  intro H.
  specialize (H collaborators
                (login_request (Js.Str admin_email) (Js.Str admin_password)
                               Js.Undefined)
                (world [] []) eq_refl).
  discriminate H.
Qed.

Lemma login_success_shape_witness :
  let request := login_request alice_email alice_password Js.Undefined in
  Js.keys (Js.get "data" (body (fst (loginUser request (world [alice] [])))))
  = ["_id"; "name"; "email"; "phone"; "token"].
Proof.
  intro request.
  destruct (login_success_shape request (world [alice] []) eq_refl)
    as (_ & _ & [(Hb & _) | (_ & _ & Hk & _)]).
  - discriminate Hb.
  - exact Hk.
Defined.

Lemma login_empty_passphrase_witness :
  loginUser (login_request alice_email alice_password (Js.Str ""))
            (world [alice] [])
  = loginUser (login_request_without_passphrase alice_email alice_password)
              (world [alice] []).
Proof.
  exact (proj1 (login_empty_passphrase
                  (login_request alice_email alice_password (Js.Str ""))
                  (login_request_without_passphrase alice_email alice_password)
                  (world [alice] []) alice alice_token
                  eq_refl eq_refl eq_refl eq_refl eq_refl eq_refl eq_refl)).
Defined.

End OnPlainStore.

(* ================================================================== *)
(** * The client form *)
(* ================================================================== *)

Module ClientFacts.
Import Client.

Ltac case_handler :=
  repeat match goal with
         | |- context [match ?r with Returned _ => _ | Thrown _ => _ end] =>
             destruct r
         | |- context [if ?b then _ else _] => destruct b eqn:?
         end.

(** Extends a path [R] to a state by typing [v] into input [f]. *)
Ltac type_in R f v :=
  match type of R with
  | reachable ?s =>
      let R' := fresh "R" in
      pose proof (reach_step _ _ R (step_input s f v eq_refl)) as R';
      clear R; rename R' into R
  end.

(** The form, as opposed to the popup, never holds a passphrase: no
    input of the form writes the field, and both ways back from the
    popup clear it. *)
Lemma form_has_blank_passphrase (s : State) :
  reachable s ->
  showPassphrasePopup s = false ->
  passphrase (formData s) = "".
Proof.
  induction 1 as [|s s' Hr IH Hstep]; [reflexivity|].
  destruct Hstep as [s reply Hp|s reply Hp|s f v Hf|s Hp|s Hp].
  - unfold handleSubmit. case_handler; simpl; intro; try discriminate;
      now apply IH.
  - unfold handlePassphraseSubmit.
    destruct (tempLoginData s) as [[e p]|]; case_handler; simpl; congruence.
  - unfold rendered in Hf. destruct (showPassphrasePopup s) eqn:Hp.
    + simpl. congruence.
    + destruct f; try discriminate; simpl; intros _; now apply IH.
  - reflexivity.
  - reflexivity.
Qed.

(** The only login call [handleSubmit] can make is the admin one. *)
Lemma handleSubmit_login_calls (s : State) (reply : Outcome Js.value)
      (e p : string) (pp : option string) :
  In (CallLogin e p pp) (handleSubmit s reply) ->
  e = admin_email /\ pp = None.
Proof.
  unfold handleSubmit.
  destruct (isSignup s).
  - case_handler; simpl; intuition discriminate.
  - destruct (blank (email (formData s)) || blank (password (formData s)));
      [simpl; intuition discriminate|].
    destruct (String.eqb (email (formData s)) admin_email) eqn:He.
    + apply String.eqb_eq in He.
      case_handler; simpl; intuition (try discriminate);
        match goal with H : CallLogin _ _ _ = CallLogin _ _ _ |- _ =>
          injection H as <- <- <- end; auto.
    + simpl; intuition discriminate.
Qed.

(** A signup form all of whose inputs were filled in, and how the
    user gets there. *)
Lemma filled_signup_reachable :
  reachable
    (mkState true false (mkFormData "Ann" "ann@example.com" "s3cret" "555-0101" "")
             "" "" "" false None).
Proof.
  pose proof (reach_step _ _ reach_initial (step_toggle initial eq_refl)) as R.
  type_in R FName "Ann".
  type_in R FEmail "ann@example.com".
  type_in R FPassword "s3cret".
  type_in R FPhone "555-0101".
  exact R.
Qed.

(** C7.  After a signup that succeeded, the passphrase the form keeps
    for display is the [passphrase] field the form had when it was
    submitted, whatever the signup call returned; that field is the
    empty string, so no passphrase is shown under the success
    message. *)
Theorem signup_displays_form_passphrase (s : State) (reply : Js.value) :
  reachable s ->
  showPassphrasePopup s = false ->
  isSignup s = true ->
  blank (name (formData s)) || blank (email (formData s))
  || blank (password (formData s)) || blank (phone (formData s)) = false ->
  succeeded reply = true ->
  let s' := run s (handleSubmit s (Returned reply)) in
  generatedPassphrase s' = passphrase (formData s) /\
  generatedPassphrase s' = "" /\
  success s' = "Account created successfully! Please save your passphrase:" /\
  passphrase_box s' = None /\
  (forall reply' : Js.value,
      succeeded reply' = true ->
      handleSubmit s (Returned reply') = handleSubmit s (Returned reply)).
Proof.
  intros Hr Hp Hs Hfilled Hok.
  pose proof (form_has_blank_passphrase s Hr Hp) as Hblank.
  unfold handleSubmit. rewrite Hs, Hfilled, Hok. simpl.
  unfold passphrase_box. simpl. rewrite Hp, Hblank. simpl.
  repeat split.
  intros reply' Hok'. now rewrite Hok'.
Qed.

Lemma signup_displays_form_passphrase_witness :
  let s := mkState true false
                   (mkFormData "Ann" "ann@example.com" "s3cret" "555-0101" "")
                   "" "" "" false None in
  let server_reply :=
    Js.Object [("passphrase", Js.Str "alpha bravo charlie")] in
  generatedPassphrase (run s (handleSubmit s (Returned server_reply))) = "".
Proof.
  intros s server_reply.
  destruct (signup_displays_form_passphrase s server_reply
              filled_signup_reachable eq_refl eq_refl eq_refl eq_refl)
    as (_ & H & _).
  exact H.
Defined.

(** C9.  Submitting the login form.  With the email
    ['admin@zamanix.com'] no state the handler goes through shows the
    passphrase popup, a login call it makes carries no passphrase, and
    it ends on the success message or on an error message.  With any
    other email, the fields being filled in, it makes no login call
    and ends with the popup open and the credentials put aside; the
    login call is the popup's, made from that state. *)
Theorem login_submit_popup (s : State) (reply : Outcome Js.value) :
  showPassphrasePopup s = false ->
  isSignup s = false ->
  let acts := handleSubmit s reply in
  let fd := formData s in
  (email fd = admin_email ->
     existsb opens_popup acts = false /\
     Forall (fun st => showPassphrasePopup st = false) (states_through s acts) /\
     (blank (password fd) = false ->
      filter is_login_call acts = [CallLogin admin_email (password fd) None]) /\
     ((success (run s acts) = "Login successful!" /\ error (run s acts) = "")
      \/ (success (run s acts) = "" /\ error (run s acts) <> "")))
  /\
  (email fd <> admin_email ->
   blank (email fd) || blank (password fd) = false ->
     existsb is_login_call acts = false /\
     showPassphrasePopup (run s acts) = true /\
     tempLoginData (run s acts) = Some (email fd, password fd) /\
     forall reply',
       filter is_login_call (handlePassphraseSubmit (run s acts) reply')
       = [CallLogin (email fd) (password fd) (Some (passphrase fd))]).
Proof.
  intros Hp Hs acts fd. subst acts fd. split.
  - intro He. unfold handleSubmit. rewrite Hs, He.
    replace (blank admin_email) with false by reflexivity.
    rewrite String.eqb_refl. simpl orb.
    destruct (blank (password (formData s))) eqn:Hpw.
    + simpl. rewrite Hp. repeat split; try discriminate.
      * repeat constructor.
      * right. split; [reflexivity|discriminate].
    + destruct reply as [v|err]; [destruct (succeeded v)|];
        simpl; rewrite Hp; (repeat split; [repeat constructor|]);
        [left; split; reflexivity
        |right; split; [reflexivity|discriminate]
        |right; split; [reflexivity|discriminate]].
  - intros He Hfilled. unfold handleSubmit. rewrite Hs, Hfilled.
    apply String.eqb_neq in He. rewrite He. simpl.
    repeat split. intro reply'.
    unfold handlePassphraseSubmit. simpl.
    destruct reply' as [v|err]; [destruct (succeeded v)|]; reflexivity.
Qed.

Lemma login_submit_popup_witness :
  let s := mkState false false (mkFormData "" "ann@example.com" "s3cret" "" "")
                   "" "" "" false None in
  showPassphrasePopup (run s (handleSubmit s (Returned (Js.Bool true)))) = true.
Proof.
  intro s.
  destruct (login_submit_popup s (Returned (Js.Bool true)) eq_refl eq_refl)
    as [_ Huser].
  destruct Huser as (_ & H & _); [discriminate|reflexivity|exact H].
Defined.

End ClientFacts.

(* ================================================================== *)
(** * The database bootstrap *)
(* ================================================================== *)

Module BootFacts.
Import Boot.

Lemma backoff_from_step (delay : Q) (k : nat) :
  backoff_from delay (S k) == backoff_from delay k * (3 # 2).
Proof.
  revert delay. induction k as [|k IH]; intro delay.
  - reflexivity.
  - change (backoff_from delay (S (S k)))
      with (backoff_from (delay * (3 # 2)) (S k)).
    rewrite IH. reflexivity.
Qed.

Section ConnectDB.
Variable connects : nat -> bool.

(** [connectDB] resolves to [true] exactly when one of the calls it
    may make, the first and one per retry, resolves. *)
Lemma connectDB_result (retries n : nat) (delay : Q) :
  fst (connectDB connects n retries delay)
  = existsb connects (seq n (S retries)).
Proof.
  revert n delay. induction retries as [|r IH]; intros n delay.
  - simpl. destruct (connects n); reflexivity.
  - cbn [connectDB]. destruct (connects n) eqn:Hc.
    + simpl. now rewrite Hc.
    + specialize (IH (S n) (delay * (3 # 2))).
      destruct (connectDB connects (S n) r (delay * (3 # 2))) as [ok t].
      simpl in IH. cbn [fst]. rewrite IH.
      change (seq n (S (S r))) with (n :: seq (S n) (S r)).
      cbn [existsb]. now rewrite Hc.
Qed.

(** One call more than there are sleeps, and never more calls than
    the first and one per retry. *)
Lemma connectDB_attempts (retries n : nat) (delay : Q) :
  let t := snd (connectDB connects n retries delay) in
  attempts t = S (length (sleeps t)) /\ (attempts t <= S retries)%nat.
Proof.
  revert n delay. induction retries as [|r IH]; intros n delay.
  - unfold attempts. simpl.
    destruct (connects n); simpl; split; reflexivity || lia.
  - cbn [connectDB]. destruct (connects n).
    + unfold attempts. simpl. split; [reflexivity|lia].
    + specialize (IH (S n) (delay * (3 # 2))).
      destruct (connectDB connects (S n) r (delay * (3 # 2))) as [ok t].
      cbn [snd] in *. unfold attempts in *. simpl. lia.
Qed.

(** The sleeps are the start delay multiplied by 1.5 once more each
    time. *)
Lemma connectDB_sleeps (retries n : nat) (delay : Q) :
  let t := snd (connectDB connects n retries delay) in
  sleeps t = map (backoff_from delay) (seq 0 (length (sleeps t))).
Proof.
  revert n delay. induction retries as [|r IH]; intros n delay.
  - simpl. destruct (connects n); reflexivity.
  - cbn [connectDB]. destruct (connects n).
    + reflexivity.
    + specialize (IH (S n) (delay * (3 # 2))).
      destruct (connectDB connects (S n) r (delay * (3 # 2))) as [ok t].
      cbn [snd] in *. cbn [sleeps length seq map]. f_equal.
      rewrite <- seq_shift, map_map. exact IH.
Qed.

(** When every call is refused, all of them are made. *)
Lemma connectDB_exhausted (retries n : nat) (delay : Q) :
  fst (connectDB connects n retries delay) = false ->
  attempts (snd (connectDB connects n retries delay)) = S retries.
Proof.
  revert n delay. induction retries as [|r IH]; intros n delay.
  - simpl. destruct (connects n); [discriminate|reflexivity].
  - cbn [connectDB]. destruct (connects n); [discriminate|].
    specialize (IH (S n) (delay * (3 # 2))).
    destruct (connectDB connects (S n) r (delay * (3 # 2))) as [ok t].
    cbn [fst snd] in *. intro H. unfold attempts in *. simpl.
    now rewrite (IH H).
Qed.

(** [connectDB] mounts nothing, does not listen and does not exit. *)
Lemma connectDB_quiet (retries n : nat) (delay : Q) :
  let t := snd (connectDB connects n retries delay) in
  existsb is_serving t = false /\ existsb is_exit t = false.
Proof.
  revert n delay. induction retries as [|r IH]; intros n delay.
  - simpl. destruct (connects n); split; reflexivity.
  - cbn [connectDB]. destruct (connects n).
    + split; reflexivity.
    + specialize (IH (S n) (delay * (3 # 2))).
      destruct (connectDB connects (S n) r (delay * (3 # 2))) as [ok t].
      exact IH.
Qed.

(** A resolved [connectDB] ends on the connection. *)
Lemma connectDB_connected (retries n : nat) (delay : Q) :
  fst (connectDB connects n retries delay) = true ->
  exists before,
    snd (connectDB connects n retries delay) = (before ++ [Connected])%list.
Proof.
  revert n delay. induction retries as [|r IH]; intros n delay.
  - simpl. destruct (connects n); [|discriminate].
    intros _. now exists [MongooseConnect].
  - cbn [connectDB]. destruct (connects n).
    + intros _. now exists [MongooseConnect].
    + specialize (IH (S n) (delay * (3 # 2))).
      destruct (connectDB connects (S n) r (delay * (3 # 2))) as [ok t].
      cbn [fst snd] in *. intro H. destruct (IH H) as [before ->].
      eexists. rewrite !app_comm_cons. reflexivity.
Qed.

End ConnectDB.

(** Every delay a start can pass on, the sixth included, is a double:
    the multiplications by 1.5 of the source do not round. *)
Lemma backoff_exact (k : nat) :
  (k <= 5)%nat -> exact_double (backoff k) = true.
Proof.
  intro Hk.
  assert (Hcase : (k = 0 \/ k = 1 \/ k = 2 \/ k = 3 \/ k = 4 \/ k = 5)%nat) by lia.
  repeat (destruct Hcase as [->|Hcase]); try subst k; reflexivity.
Qed.

Lemma attempts_app (a b : list Event) :
  attempts (a ++ b) = (attempts a + attempts b)%nat.
Proof. unfold attempts. now rewrite filter_app, length_app. Qed.

Lemma sleeps_app (a b : list Event) :
  sleeps (a ++ b) = (sleeps a ++ sleeps b)%list.
Proof.
  induction a as [|e a IH]; [reflexivity|].
  destruct e; simpl; now rewrite IH.
Qed.

Lemma backoff_values (k : nat) :
  (k <= 5)%nat ->
  Forall2 Qeq (map backoff (seq 0 k)) (firstn k backoff_ms).
Proof.
  intro Hk.
  assert (Hcase : (k = 0 \/ k = 1 \/ k = 2 \/ k = 3 \/ k = 4 \/ k = 5)%nat) by lia.
  repeat (destruct Hcase as [->|Hcase]); try subst k;
    repeat constructor; reflexivity.
Qed.

(** C10.  A start calls [mongoose.connect] at most six times, the
    first call and five retries; it sleeps before each retry, 5000 ms
    first and 1.5 times the previous delay each time after.  When one
    of the calls resolves, the API routers are mounted and the server
    listens, all of it after the connection, and the process does not
    exit.  When all six are refused, the process exits with code 1
    and has mounted no router and never listened. *)
Theorem bootstrap_backoff_then_serve (connects : nat -> bool) (production : bool) :
  let t := main connects production in
  (attempts t <= 6)%nat /\
  attempts t = S (length (sleeps t)) /\
  sleeps t = map backoff (seq 0 (length (sleeps t))) /\
  Forall2 Qeq (sleeps t) (firstn (length (sleeps t)) backoff_ms) /\
  backoff 0 = 5000 /\
  (forall k, backoff (S k) == backoff k * (3 # 2)) /\
  if database_up connects then
    exists before after,
      t = (before ++ Connected :: after)%list /\
      existsb is_serving before = false /\
      In (MountRouter "/api/blogs") after /\
      In (MountRouter "/api/users") after /\
      In Listen after /\
      existsb is_exit t = false
  else
    attempts t = 6%nat /\
    length (sleeps t) = 5%nat /\
    existsb is_serving t = false /\
    last t Listen = Exit 1.
Proof.
  intro t. subst t. unfold main, initializeApp, database_up.
  pose proof (connectDB_result connects default_retries 0 default_delay) as Hres.
  pose proof (connectDB_attempts connects default_retries 0 default_delay) as [Hn Hle].
  pose proof (connectDB_sleeps connects default_retries 0 default_delay) as Hsl.
  pose proof (connectDB_exhausted connects default_retries 0 default_delay) as Hex.
  pose proof (connectDB_quiet connects default_retries 0 default_delay) as [Hq He].
  pose proof (connectDB_connected connects default_retries 0 default_delay) as Hco.
  rewrite <- Hres.
  destruct (connectDB connects 0 default_retries default_delay) as [ok ct].
  cbn [fst snd] in *.
  assert (Hk : (length (sleeps ct) <= 5)%nat) by (unfold default_retries in Hle; lia).
  assert (Hsame : forall tail : list Event,
             sleeps tail = [] -> attempts tail = 0%nat ->
             let t := ([UseMiddleware "cors"; UseMiddleware "express.json";
                        UseMiddleware "express.urlencoded";
                        MountRoute "/api/health"] ++ ct ++ tail)%list in
             sleeps t = sleeps ct /\ attempts t = attempts ct).
  { intros tail Hs Ha. cbn zeta.
    rewrite sleeps_app, attempts_app, sleeps_app, attempts_app, Hs, Ha.
    change (sleeps [UseMiddleware "cors"; UseMiddleware "express.json";
                    UseMiddleware "express.urlencoded";
                    MountRoute "/api/health"]) with (@nil Q).
    change (attempts [UseMiddleware "cors"; UseMiddleware "express.json";
                      UseMiddleware "express.urlencoded";
                      MountRoute "/api/health"]) with 0%nat.
    rewrite app_nil_r. split; [reflexivity|lia]. }
  assert (Hgrow : forall k, backoff (S k) == backoff k * (3 # 2))
    by (intro k; apply backoff_from_step).
  destruct ok; cbn [negb].
  - destruct (Hco eq_refl) as [before ->].
    rewrite <- !app_assoc.
    match goal with
    | |- context [(before ++ [Connected] ++ ?tl)%list] =>
        destruct (Hsame tl) as [Hs Ha];
        [destruct production; reflexivity
        |destruct production; reflexivity|]
    end.
    cbn zeta in Hs, Ha. rewrite <- !app_assoc in Hs, Ha.
    rewrite Hs, Ha.
    repeat split; try assumption.
    + rewrite Hsl at 1. now apply backoff_values.
    + exists ([UseMiddleware "cors"; UseMiddleware "express.json";
               UseMiddleware "express.urlencoded";
               MountRoute "/api/health"] ++ before)%list.
      eexists. split; [rewrite <- app_assoc; reflexivity|].
      rewrite existsb_app in Hq. apply orb_false_iff in Hq as [Hq _].
      rewrite existsb_app in He. apply orb_false_iff in He as [He _].
      repeat split.
      * rewrite existsb_app, Hq. reflexivity.
      * simpl. tauto.
      * simpl. tauto.
      * destruct production; simpl; tauto.
      * rewrite !existsb_app, He. destruct production; reflexivity.
  - destruct (Hsame [Exit 1] eq_refl eq_refl) as [Hs Ha].
    cbn zeta in Hs, Ha. rewrite Hs, Ha.
    specialize (Hex eq_refl). unfold default_retries in Hex.
    repeat split; try assumption.
    + rewrite Hsl at 1. now apply backoff_values.
    + lia.
    + rewrite !existsb_app, Hq. reflexivity.
    + rewrite !app_assoc. apply last_last.
Qed.

End BootFacts.

(* ================================================================== *)
(** * More on the controllers *)
(* ================================================================== *)

(** Splits a handler run along the outcomes of the calls it makes. *)
Ltac by_outcome :=
  repeat (simpl;
          match goal with
          | |- context [User_findOne ?s ?q] =>
              destruct (User_findOne s q) as [[?user|]|?err] eqn:?Hfind
          | |- context [user_matchPassword ?u ?p] =>
              destruct (user_matchPassword u p) as [[|]|?err] eqn:?Hmatch
          | |- context [user_verifyPassphrase ?u ?p] =>
              destruct (user_verifyPassphrase u p) as [[|]|?err] eqn:?Hverify
          | |- context [generateToken ?i] =>
              destruct (generateToken i) as [?token|?err] eqn:?Htoken
          | |- context [Js.truthy ?v] =>
              destruct (Js.truthy v) eqn:?Htruthy
          end);
  simpl.

Lemma skipn_length_app {A} (l calls : list A) :
  skipn (length l) (l ++ calls) = calls.
Proof. induction l as [|x l IH]; [reflexivity|exact IH]. Qed.

Section ControllerMore.
Context `{C : Collaborators}.

Lemma new_calls_record (w : World) (ev : Event) :
  new_calls w (record ev w) = [ev].
Proof. unfold new_calls, record. simpl. apply skipn_length_app. Qed.

Lemma new_calls_app (w w' : World) (calls : list Event) :
  w_trace w' = (w_trace w ++ calls)%list -> new_calls w w' = calls.
Proof. intro H. unfold new_calls. rewrite H. apply skipn_length_app. Qed.

(** Registration, the path that succeeds.  For an email other than the
    reserved one, when the generator yields a passphrase, the store
    creates the record and the issuer returns a token, the answer is 201
    and the passphrase it discloses is the one handed to the store; the
    four fields reach the store as they were read from the body. *)
Theorem register_discloses_stored_passphrase
        (req_body : Js.value) (w : World) (passphrase : string)
        (entropy' : Entropy) (user : UserDoc) (store' : Store) (token : string) :
  Js.get "email" req_body <> Js.Str admin_email ->
  generatePassphrase (w_entropy w) = (Returned passphrase, entropy') ->
  User_create (w_store w) (Js.get "name" req_body) (Js.get "email" req_body)
              (Js.get "phone" req_body) (Js.get "password" req_body) passphrase
  = (Returned user, store') ->
  generateToken (_id (fields user)) = Returned token ->
  let response := fst (registerUser req_body w) in
  let w' := snd (registerUser req_body w) in
  response = res_status_json 201 (registered_body (fields user) passphrase token) /\
  Js.get "passphrase" (Js.get "data" (body response)) = Js.Str passphrase /\
  Js.get "token" (Js.get "data" (body response)) = Js.Str token /\
  w_store w' = store' /\
  w_entropy w' = entropy' /\
  new_calls w w'
  = [EvGeneratePassphrase;
     EvCreate (Js.get "name" req_body) (Js.get "email" req_body)
              (Js.get "phone" req_body) (Js.get "password" req_body) passphrase;
     EvGenerateToken (_id (fields user))].
Proof.
  intros He Hg Hc Ht. apply is_string_false in He.
  unfold new_calls. unfold_handler. rewrite He, Hg. simpl. rewrite Hc. simpl.
  rewrite Ht. simpl. repeat split.
  rewrite <- !app_assoc. apply skipn_length_app.
Qed.

(** Registration, the paths that fail.  Whatever is thrown on the way is
    answered with 400 and the error's own message, or 'Failed to create
    account' when it has none.  A generator that throws leaves the store
    alone and no create call is made; a store that throws leaves what it
    left. *)
Theorem register_failures_answer_400 (req_body : Js.value) (w : World) :
  Js.get "email" req_body <> Js.Str admin_email ->
  let response := fst (registerUser req_body w) in
  let w' := snd (registerUser req_body w) in
  (forall e entropy',
      generatePassphrase (w_entropy w) = (Thrown e, entropy') ->
      response = registration_failed e /\
      w_store w' = w_store w /\
      new_calls w w' = [EvGeneratePassphrase])
  /\
  (forall passphrase entropy' e store',
      generatePassphrase (w_entropy w) = (Returned passphrase, entropy') ->
      User_create (w_store w) (Js.get "name" req_body) (Js.get "email" req_body)
                  (Js.get "phone" req_body) (Js.get "password" req_body) passphrase
      = (Thrown e, store') ->
      response = registration_failed e /\
      w_store w' = store' /\
      existsb (fun ev => match ev with EvGenerateToken _ => true | _ => false end)
              (new_calls w w') = false).
Proof.
  intro He. apply is_string_false in He. split.
  - intros e entropy' Hg. unfold new_calls. unfold_handler.
    rewrite He, Hg. simpl. repeat split. apply skipn_length_app.
  - intros passphrase entropy' e store' Hg Hc. unfold new_calls. unfold_handler.
    rewrite He, Hg. simpl. rewrite Hc. simpl. repeat split.
    rewrite <- !app_assoc, skipn_length_app. reflexivity.
Qed.

(** Registration, the path that half succeeds.  When the token issuer
    throws after the record was created, the client is told 400 and the
    record stays in the store. *)
Theorem register_token_failure_keeps_user
        (req_body : Js.value) (w : World) (passphrase : string)
        (entropy' : Entropy) (user : UserDoc) (store' : Store) (e : JsError) :
  Js.get "email" req_body <> Js.Str admin_email ->
  generatePassphrase (w_entropy w) = (Returned passphrase, entropy') ->
  User_create (w_store w) (Js.get "name" req_body) (Js.get "email" req_body)
              (Js.get "phone" req_body) (Js.get "password" req_body) passphrase
  = (Returned user, store') ->
  generateToken (_id (fields user)) = Thrown e ->
  let response := fst (registerUser req_body w) in
  let w' := snd (registerUser req_body w) in
  response = registration_failed e /\
  statusCode response = 400%Z /\
  w_store w' = store' /\
  existsb is_create (new_calls w w') = true.
Proof.
  intros He Hg Hc Ht. apply is_string_false in He.
  unfold new_calls. unfold_handler. rewrite He, Hg. simpl. rewrite Hc. simpl.
  rewrite Ht. simpl. repeat split.
  rewrite <- !app_assoc, skipn_length_app. reflexivity.
Qed.

(** [registerUser] answers 201 or 400 and nothing else; a 201 means the
    store returned a new record and the issuer a token for it. *)
Theorem register_status (req_body : Js.value) (w : World) :
  let response := fst (registerUser req_body w) in
  (statusCode response = 201%Z \/ statusCode response = 400%Z) /\
  (statusCode response = 201%Z ->
   exists passphrase entropy' user store' token,
     generatePassphrase (w_entropy w) = (Returned passphrase, entropy') /\
     User_create (w_store w) (Js.get "name" req_body) (Js.get "email" req_body)
                 (Js.get "phone" req_body) (Js.get "password" req_body) passphrase
     = (Returned user, store') /\
     generateToken (_id (fields user)) = Returned token /\
     w_store (snd (registerUser req_body w)) = store').
Proof.
  unfold_handler.
  destruct (Js.is_string (Js.get "email" req_body) admin_email).
  - simpl. split; [now right|discriminate].
  - simpl.
    destruct (generatePassphrase (w_entropy w)) as [[passphrase|e] entropy'] eqn:Hg;
      simpl; [|split; [now right|discriminate]].
    destruct (User_create _ _ _ _ _ _) as [[user|e] store'] eqn:Hc;
      simpl; [|split; [now right|discriminate]].
    destruct (generateToken _) as [token|e] eqn:Ht;
      simpl; [|split; [now right|discriminate]].
    split; [now left|]. intros _.
    exists passphrase, entropy', user, store', token. repeat split; assumption.
Qed.

(** Login, the path with a passphrase.  For a stored user under a
    non-admin email, the right password and a passphrase the stored
    check accepts answer 200 with the token; the calls are the lookup,
    the password check, the passphrase check and the issuer. *)
Theorem login_with_passphrase (req_body : Js.value) (w : World)
        (user : UserDoc) (token : string) :
  Js.get "email" req_body <> Js.Str admin_email ->
  Js.truthy (Js.get "passphrase" req_body) = true ->
  User_findOne (w_store w) (Js.get "email" req_body) = Returned (Some user) ->
  user_matchPassword user (Js.get "password" req_body) = Returned true ->
  user_verifyPassphrase user (Js.get "passphrase" req_body) = Returned true ->
  generateToken (_id (fields user)) = Returned token ->
  fst (loginUser req_body w) = res_json (user_login_body (fields user) token) /\
  new_calls w (snd (loginUser req_body w))
  = [EvFindOne (Js.get "email" req_body);
     EvMatchPassword (_id (fields user)) (Js.get "password" req_body);
     EvVerifyPassphrase (_id (fields user)) (Js.get "passphrase" req_body);
     EvGenerateToken (_id (fields user))].
Proof.
  intros He Hpp Hf Hm Hv Ht.
  pose proof (not_admin_email _ (Js.get "password" req_body) He) as Hb.
  unfold new_calls. unfold_handler. rewrite Hb. simpl. rewrite Hf. simpl.
  rewrite Hm. simpl. rewrite Hpp. simpl. rewrite Hv. simpl. rewrite Ht. simpl.
  split; [reflexivity|]. rewrite <- !app_assoc. apply skipn_length_app.
Qed.

(** No token without the checks.  If a login asks the issuer for a
    token, the store returned a record under the request's email, the
    token is for that record, its password check accepted the password,
    and its passphrase check accepted the passphrase if one was given. *)
Theorem login_token_needs_checks (req_body : Js.value) (w : World) (id : string) :
  In (EvGenerateToken id) (new_calls w (snd (loginUser req_body w))) ->
  exists user,
    User_findOne (w_store w) (Js.get "email" req_body) = Returned (Some user) /\
    id = _id (fields user) /\
    user_matchPassword user (Js.get "password" req_body) = Returned true /\
    (Js.truthy (Js.get "passphrase" req_body) = true ->
     user_verifyPassphrase user (Js.get "passphrase" req_body) = Returned true).
Proof.
  unfold new_calls. unfold_handler.
  destruct (is_admin_login _ _).
  - simpl. rewrite <- (app_nil_r (w_trace w)) at 2.
    rewrite skipn_length_app. intros [].
  - by_outcome; rewrite <- ?app_assoc, skipn_length_app; simpl; intro Hin;
      repeat (destruct Hin as [Hin|Hin]; try discriminate Hin); try contradiction;
      injection Hin as <-; exists user; repeat split; congruence.
Qed.

(** Status 500 is the answer to a throw and to nothing else.  A login
    is answered 500 exactly when the destructuring of [req.body]
    throws, or the request is not the admin pair and the first of its
    calls not to return normally throws: the lookup; or, a record being
    found, its password check; or, the password accepted, the check of
    a truthy passphrase; or, that passed or skipped, the issuer.  The
    body is then the fixed 'Server error occurred', whatever was
    thrown; a body that cannot be destructured is answered without any
    call. *)
Theorem login_500_iff_throw (req_body : Js.value) (w : World) :
  let email := Js.get "email" req_body in
  let password := Js.get "password" req_body in
  let passphrase := Js.get "passphrase" req_body in
  (statusCode (fst (loginUser_any_body req_body w)) = 500%Z <->
   destructurable req_body = false \/
   (is_admin_login email password = false /\
    ((exists e, User_findOne (w_store w) email = Thrown e)
     \/
     exists user,
       User_findOne (w_store w) email = Returned (Some user) /\
       ((exists e, user_matchPassword user password = Thrown e)
        \/
        (user_matchPassword user password = Returned true /\
         ((Js.truthy passphrase = true /\
           exists e, user_verifyPassphrase user passphrase = Thrown e)
          \/
          ((Js.truthy passphrase = false \/
            user_verifyPassphrase user passphrase = Returned true) /\
           exists e, generateToken (_id (fields user)) = Thrown e)))))))
  /\
  (statusCode (fst (loginUser_any_body req_body w)) = 500%Z ->
   fst (loginUser_any_body req_body w) = server_error)
  /\
  (destructurable req_body = false ->
   loginUser_any_body req_body w = (server_error, w)).
Proof.
  cbn zeta. unfold loginUser_any_body.
  destruct (destructurable req_body).
  2: { repeat split; auto. }
  split; [|split; [|discriminate]].
  - split.
    + intro Hs. right. revert Hs. unfold_handler.
      destruct (is_admin_login _ _); [discriminate|].
      by_outcome; intro Hs; try discriminate Hs; (split; [reflexivity|]);
        first [left; eexists; reflexivity
              |right; exists user; split; [reflexivity|];
               first [left; eexists; eassumption
                     |right; split; [eassumption|];
                      first [left; split; [reflexivity|eexists; eassumption]
                            |right; split;
                             [first [left; reflexivity|right; eassumption]
                             |eexists; eassumption]]]].
    + intros [Hd|(Hb & Hcause)]; [discriminate Hd|].
      unfold_handler. rewrite Hb. simpl.
      destruct Hcause as [[e Hf]|(user & Hf & Hcause)]; rewrite Hf; simpl;
        [reflexivity|].
      destruct Hcause as [[e Hm]|(Hm & Hcause)]; rewrite Hm; simpl;
        [reflexivity|].
      destruct Hcause as [(Ht & e & Hv)|(Hpass & e & Htok)].
      * rewrite Ht. simpl. rewrite Hv. reflexivity.
      * destruct (Js.truthy (Js.get "passphrase" req_body)) eqn:Ht; simpl.
        -- destruct Hpass as [Hpass|Hv]; [discriminate Hpass|].
           rewrite Hv. simpl. rewrite Htok. reflexivity.
        -- rewrite Htok. reflexivity.
  - unfold_handler.
    destruct (is_admin_login _ _); [discriminate|].
    by_outcome; intro Hs; try discriminate Hs; reflexivity.
Qed.

(** Status 401 is the answer to a refusal and never to a throw: the
    store returned no record, or the record's password check returned
    false, or it returned true and the check of a supplied passphrase
    returned false. *)
Theorem login_401_needs_refusal (req_body : Js.value) (w : World) :
  statusCode (fst (loginUser req_body w)) = 401%Z ->
  (fst (loginUser req_body w) = invalid_credentials /\
   (User_findOne (w_store w) (Js.get "email" req_body) = Returned None \/
    exists user,
      User_findOne (w_store w) (Js.get "email" req_body) = Returned (Some user) /\
      user_matchPassword user (Js.get "password" req_body) = Returned false))
  \/
  (fst (loginUser req_body w) = invalid_passphrase /\
   exists user,
     User_findOne (w_store w) (Js.get "email" req_body) = Returned (Some user) /\
     user_matchPassword user (Js.get "password" req_body) = Returned true /\
     Js.truthy (Js.get "passphrase" req_body) = true /\
     user_verifyPassphrase user (Js.get "passphrase" req_body) = Returned false).
Proof.
  unfold_handler.
  destruct (is_admin_login _ _); [discriminate|].
  by_outcome; intro Hs; try discriminate Hs;
    first [right; split; [reflexivity|]; exists user;
           repeat split; assumption || reflexivity
          |left; split; [reflexivity|]; right; exists user;
           split; assumption || reflexivity
          |left; split; [reflexivity|]; left; reflexivity].
Qed.

(** A login that stops before the passphrase does not look at it.
    When the store has no record whose password check accepts the
    password, two requests that differ in the passphrase alone run
    alike: same answer, same calls. *)
Theorem login_rejection_ignores_passphrase (one other : Js.value) (w : World) :
  Js.get "email" one = Js.get "email" other ->
  Js.get "password" one = Js.get "password" other ->
  (forall user,
      User_findOne (w_store w) (Js.get "email" one) = Returned (Some user) ->
      user_matchPassword user (Js.get "password" one) <> Returned true) ->
  loginUser one w = loginUser other w.
Proof.
  intros He Hp Hno. unfold_handler. rewrite <- He, <- Hp.
  destruct (is_admin_login _ _); [reflexivity|]. simpl.
  destruct (User_findOne _ _) as [[user|]|err] eqn:Hf; simpl; try reflexivity.
  specialize (Hno user eq_refl).
  destruct (user_matchPassword _ _) as [[|]|err]; simpl;
    reflexivity || contradiction.
Qed.

(** A passphrase that is falsy is no passphrase.  Two requests that
    agree on email and password and whose passphrases are both falsy
    (absent, [null], [false], [0], the empty string) run alike, and
    neither calls the passphrase check. *)
Theorem login_falsy_passphrase (one other : Js.value) (w : World) :
  Js.get "email" one = Js.get "email" other ->
  Js.get "password" one = Js.get "password" other ->
  Js.truthy (Js.get "passphrase" one) = false ->
  Js.truthy (Js.get "passphrase" other) = false ->
  loginUser one w = loginUser other w /\
  existsb is_verification (new_calls w (snd (loginUser one w))) = false.
Proof.
  intros He Hp H1 H2. unfold new_calls. unfold_handler.
  rewrite <- He, <- Hp, H1, H2.
  destruct (is_admin_login _ _).
  - simpl. split; [reflexivity|].
    rewrite <- (app_nil_r (w_trace w)) at 2. now rewrite skipn_length_app.
  - by_outcome; (split; [reflexivity|]);
      rewrite <- ?app_assoc, skipn_length_app; reflexivity.
Qed.

End ControllerMore.

Section ProfileFacts.
Context `{C : Collaborators}.
Variable User_findById : Store -> Js.value -> Outcome (option UserDoc).

(** [getUserProfile] answers 200 with exactly [_id, name, email, phone]
    of the record found, so neither token nor passphrase nor password,
    or 404 'User not found' when there is none.  It sends nothing and
    throws exactly when [req.user] is [undefined] or [null], with the
    TypeError of that read, or when the lookup rejects, with the
    lookup's error. *)
Theorem profile_answers (req_user : Js.value) (st : Store) :
  (req_user = Js.Undefined ->
   getUserProfile User_findById req_user st
   = Thrown (mkError (Js.Str "Cannot read properties of undefined (reading '_id')")))
  /\
  (req_user = Js.Null ->
   getUserProfile User_findById req_user st
   = Thrown (mkError (Js.Str "Cannot read properties of null (reading '_id')")))
  /\
  (req_user <> Js.Undefined -> req_user <> Js.Null ->
   forall e,
     User_findById st (Js.get "_id" req_user) = Thrown e ->
     getUserProfile User_findById req_user st = Thrown e)
  /\
  match getUserProfile User_findById req_user st with
  | Returned response =>
      req_user <> Js.Undefined /\ req_user <> Js.Null /\
      ((exists user,
           User_findById st (Js.get "_id" req_user) = Returned (Some user) /\
           response = res_json (profile_body (fields user)) /\
           statusCode response = 200%Z /\
           Js.keys (Js.get "data" (body response)) = ["_id"; "name"; "email"; "phone"] /\
           Js.has "token" (Js.get "data" (body response)) = false /\
           Js.has "passphrase" (Js.get "data" (body response)) = false /\
           Js.has "password" (Js.get "data" (body response)) = false)
       \/
       (User_findById st (Js.get "_id" req_user) = Returned None /\
        response = user_not_found /\
        statusCode response = 404%Z /\
        Js.get "message" (body response) = Js.Str "User not found"))
  | Thrown e =>
      req_user = Js.Undefined \/ req_user = Js.Null \/
      User_findById st (Js.get "_id" req_user) = Thrown e
  end.
Proof.
  unfold getUserProfile. split; [|split; [|split]].
  - intros ->. reflexivity.
  - intros ->. reflexivity.
  - intros Hu Hn e Hf. destruct req_user; try contradiction; now rewrite Hf.
  - destruct req_user; try tauto;
      match goal with
      | |- context [User_findById ?s ?q] =>
          destruct (User_findById s q) as [[user|]|e] eqn:Hf
      end;
      try tauto;
      (split; [discriminate|split; [discriminate|]]);
      try (left; exists user; repeat split; reflexivity);
      right; repeat split; reflexivity.
Qed.

End ProfileFacts.

(* ------------------------------------------------------------------ *)
(** ** These on the concrete stores *)
(* ------------------------------------------------------------------ *)

Module MoreOnPlainStore.
Import PlainStore.

Lemma register_discloses_stored_passphrase_witness :
  let request :=
    register_request (Js.Str "Alice") (Js.Str "alice@example.com")
                     (Js.Str "555-0100") alice_password in
  Js.get "passphrase"
         (Js.get "data"
                 (body (fst (registerUser request (world [] ["alpha bravo charlie"])))))
  = Js.Str "alpha bravo charlie".
Proof.
  intro request.
  destruct (register_discloses_stored_passphrase
              request (world [] ["alpha bravo charlie"]) "alpha bravo charlie"
              [] alice [alice] alice_token)
    as (_ & H & _); [discriminate|reflexivity|reflexivity|reflexivity|exact H].
Defined.

Lemma register_failures_answer_400_witness :
  let request :=
    register_request (Js.Str "Alice") (Js.Str "alice@example.com")
                     (Js.Str "555-0100") alice_password in
  fst (registerUser request (world [alice] ["golf hotel india"]))
  = res_status_json 400 (error_body (Js.Str "E11000 duplicate key error")).
Proof.
  intro request.
  destruct (register_failures_answer_400 request (world [alice] ["golf hotel india"]))
    as [_ Hstore]; [discriminate|].
  destruct (Hstore "golf hotel india" []
                   (mkError (Js.Str "E11000 duplicate key error")) [alice]
                   eq_refl eq_refl) as (H & _).
  exact H.
Defined.

Lemma register_token_failure_keeps_user_witness :
  let request :=
    register_request (Js.Str "Alice") (Js.Str "alice@example.com")
                     (Js.Str "555-0100") alice_password in
  let w := FaultyStore.world false true [] ["alpha bravo charlie"] in
  statusCode (fst (registerUser request w)) = 400%Z /\
  w_store (snd (registerUser request w)) = [alice].
Proof.
  intros request w.
  destruct (register_token_failure_keeps_user
              (C := FaultyStore.collaborators false true)
              request w "alpha bravo charlie" [] alice [alice]
              FaultyStore.secret_error)
    as (_ & Hs & Hst & _);
    [discriminate|reflexivity|reflexivity|reflexivity|].
  split; assumption.
Defined.

Lemma login_with_passphrase_witness :
  let request :=
    login_request alice_email alice_password (Js.Str "alpha bravo charlie") in
  fst (loginUser request (world [alice] []))
  = res_json (user_login_body (doc_fields alice) alice_token).
Proof.
  intro request.
  refine (proj1 (login_with_passphrase request (world [alice] []) alice alice_token
                   _ eq_refl eq_refl eq_refl eq_refl eq_refl)).
  discriminate.
Defined.

Lemma login_token_needs_checks_witness :
  let request := login_request alice_email alice_password Js.Undefined in
  exists user,
    findOne [alice] alice_email = Returned (Some user) /\
    "user:alice@example.com" = _id (doc_fields user).
Proof.
  intro request.
  destruct (login_token_needs_checks request (world [alice] [])
                                     "user:alice@example.com")
    as (user & Hf & Hid & _).
  - simpl. right. right. left. reflexivity.
  - exists user. split; assumption.
Defined.

(** A database out of reach, and a request without a body. *)
Example login_500_on_faulty_store :
  fst (loginUser_any_body (C := FaultyStore.collaborators true false)
         (login_request alice_email alice_password Js.Undefined)
         (FaultyStore.world true false [alice] []))
  = server_error /\
  loginUser_any_body Js.Undefined (world [alice] [])
  = (server_error, world [alice] []) /\
  statusCode (fst (loginUser_any_body (Js.Object []) (world [alice] []))) = 401%Z.
Proof. repeat split. Qed.

Lemma login_401_needs_refusal_witness :
  let request :=
    login_request alice_email alice_password (Js.Str "alpha bravo delta") in
  fst (loginUser request (world [alice] [])) = invalid_passphrase.
Proof.
  intro request.
  destruct (login_401_needs_refusal request (world [alice] []) eq_refl)
    as [(Hr & _)|(Hr & _)].
  - discriminate Hr.
  - exact Hr.
Defined.

Lemma login_rejection_ignores_passphrase_witness :
  loginUser (login_request alice_email (Js.Str "wrong horse")
                           (Js.Str "alpha bravo charlie"))
            (world [alice] [])
  = loginUser (login_request alice_email (Js.Str "wrong horse")
                             (Js.Str "anything else"))
              (world [alice] []).
Proof.
  apply (login_rejection_ignores_passphrase
           (login_request alice_email (Js.Str "wrong horse")
                          (Js.Str "alpha bravo charlie"))
           (login_request alice_email (Js.Str "wrong horse")
                          (Js.Str "anything else"))
           (world [alice] [])); [reflexivity|reflexivity|].
  intros user Hf. injection Hf as <-. discriminate.
Defined.

Lemma login_falsy_passphrase_witness :
  loginUser (login_request alice_email alice_password Js.Null) (world [alice] [])
  = loginUser (login_request alice_email alice_password (Js.Number 0))
              (world [alice] []).
Proof.
  exact (proj1 (login_falsy_passphrase
                  (login_request alice_email alice_password Js.Null)
                  (login_request alice_email alice_password (Js.Number 0))
                  (world [alice] []) eq_refl eq_refl eq_refl eq_refl)).
Defined.

(** The profile of a stored user, of a missing one, of nobody. *)
Example profile_on_plain_store :
  getUserProfile PlainProfile.findById
                 (Js.Object [("_id", Js.Str "user:alice@example.com")]) [alice]
  = Returned (res_json (profile_body (doc_fields alice))) /\
  getUserProfile PlainProfile.findById
                 (Js.Object [("_id", Js.Str "user:bob@example.com")]) [alice]
  = Returned user_not_found /\
  (exists e, getUserProfile PlainProfile.findById Js.Undefined [alice] = Thrown e).
Proof. repeat split. eexists. reflexivity. Qed.

End MoreOnPlainStore.

(* ================================================================== *)
(** * More on the client form *)
(* ================================================================== *)

Module ClientMore.
Import Client ClientView.

Ltac split_handler :=
  repeat match goal with
         | |- context [match ?r with Returned _ => _ | Thrown _ => _ end] =>
             destruct r
         | |- context [if ?b then _ else _] => destruct b eqn:?
         end.

(** What [handleSubmit] does to the popup: nothing, or it opens it on
    the credentials of the form. *)
Lemma handleSubmit_popup (s : State) (reply : Outcome Js.value) :
  let s' := run s (handleSubmit s reply) in
  formData s' = formData s /\
  ((showPassphrasePopup s' = showPassphrasePopup s /\
    tempLoginData s' = tempLoginData s)
   \/
   (showPassphrasePopup s' = true /\
    tempLoginData s' = Some (email (formData s), password (formData s)) /\
    email (formData s) <> admin_email /\
    blank (email (formData s)) = false /\
    blank (password (formData s)) = false)).
Proof.
  cbn zeta. unfold handleSubmit.
  destruct (isSignup s).
  - split_handler; simpl; auto.
  - destruct (blank (email (formData s)) || blank (password (formData s))) eqn:Hb.
    + simpl; auto.
    + destruct (String.eqb (email (formData s)) admin_email) eqn:He.
      * split_handler; simpl; auto.
      * apply String.eqb_neq in He. apply orb_false_iff in Hb as [Hb1 Hb2].
        simpl. split; [reflexivity|]. right. repeat split; assumption.
Qed.

Lemma handlePassphraseSubmit_popup (s : State) (reply : Outcome Js.value) :
  let s' := run s (handlePassphraseSubmit s reply) in
  formData s' = formData s /\
  showPassphrasePopup s' = showPassphrasePopup s /\
  tempLoginData s' = tempLoginData s.
Proof.
  cbn zeta. unfold handlePassphraseSubmit.
  destruct (tempLoginData s) as [[e p]|] eqn:Ht; [|simpl; auto].
  split_handler; simpl; auto.
Qed.

(** The popup and the credentials put aside go together. *)
Lemma popup_invariant (s : State) :
  reachable s ->
  if showPassphrasePopup s then
    tempLoginData s = Some (email (formData s), password (formData s)) /\
    email (formData s) <> admin_email /\
    blank (email (formData s)) = false /\
    blank (password (formData s)) = false
  else tempLoginData s = None.
Proof.
  induction 1 as [|s s' Hr IH Hstep]; [reflexivity|].
  destruct Hstep as [s reply Hp|s reply Hp|s f v Hf|s Hp|s Hp].
  - rewrite Hp in IH.
    destruct (handleSubmit_popup s reply) as (Hfd & [(Hp' & Ht)|(Hp' & Ht & Hrest)]).
    + rewrite Hp', Hp, Ht. exact IH.
    + rewrite Hp', Ht, Hfd. split; [reflexivity|exact Hrest].
  - destruct (handlePassphraseSubmit_popup s reply) as (Hfd & Hp' & Ht).
    rewrite Hp', Ht, Hfd. exact IH.
  - unfold rendered in Hf. destruct (showPassphrasePopup s) eqn:Hp.
    + destruct f; try discriminate. simpl. rewrite Hp. exact IH.
    + simpl. rewrite Hp. exact IH.
  - reflexivity.
  - rewrite Hp in IH. simpl. rewrite Hp. exact IH.
Qed.

(** Credentials are put aside exactly while the popup is open, and the
    ones put aside are those still in the form, both filled in and the
    email not the admin's. *)
Theorem popup_holds_credentials (s : State) :
  reachable s ->
  (showPassphrasePopup s = true <-> tempLoginData s <> None) /\
  (forall e p,
      tempLoginData s = Some (e, p) ->
      e = email (formData s) /\
      p = password (formData s) /\
      e <> admin_email /\
      blank e = false /\
      blank p = false).
Proof.
  intro Hr. pose proof (popup_invariant s Hr) as Hinv.
  destruct (showPassphrasePopup s).
  - destruct Hinv as (Ht & He & Hb1 & Hb2). rewrite Ht. split.
    + split; [discriminate|reflexivity].
    + intros e p Heq. injection Heq as <- <-. repeat split; assumption.
  - rewrite Hinv. split.
    + split; [discriminate|intro H; now contradiction H].
    + discriminate.
Qed.

(** Every login call the form makes uses the email and password of the
    form, both filled in.  It carries no passphrase exactly when the
    email is the admin's, and then it is made from the form; otherwise
    it is made from the popup and carries the passphrase typed there. *)
Theorem login_calls_shape (s : State) (reply : Outcome Js.value)
        (e p : string) (pp : option string) :
  reachable s ->
  In (CallLogin e p pp)
     (if showPassphrasePopup s then handlePassphraseSubmit s reply
      else handleSubmit s reply) ->
  e = email (formData s) /\
  p = password (formData s) /\
  blank e = false /\
  blank p = false /\
  ((e = admin_email /\ pp = None /\ showPassphrasePopup s = false)
   \/
   (e <> admin_email /\ pp = Some (passphrase (formData s)) /\
    showPassphrasePopup s = true)).
Proof.
  intros Hr Hin. pose proof (popup_invariant s Hr) as Hinv.
  destruct (showPassphrasePopup s) eqn:Hp.
  - destruct Hinv as (Ht & He & Hb1 & Hb2).
    unfold handlePassphraseSubmit in Hin. rewrite Ht in Hin.
    assert (Hcall : CallLogin (email (formData s)) (password (formData s))
                              (Some (passphrase (formData s)))
                    = CallLogin e p pp).
    { destruct reply as [v|err]; [destruct (succeeded v)|]; simpl in Hin;
        repeat (destruct Hin as [Hin|Hin]; try discriminate Hin);
        try contradiction; exact Hin. }
    injection Hcall as <- <- <-. repeat split; try assumption.
    right. repeat split. exact He.
  - unfold handleSubmit in Hin.
    destruct (isSignup s).
    { exfalso. revert Hin. split_handler; simpl; intuition discriminate. }
    destruct (blank (email (formData s)) || blank (password (formData s))) eqn:Hb.
    { exfalso. revert Hin. simpl. intuition discriminate. }
    apply orb_false_iff in Hb as [Hb1 Hb2].
    destruct (String.eqb (email (formData s)) admin_email) eqn:He.
    + apply String.eqb_eq in He.
      assert (Hcall : CallLogin (email (formData s)) (password (formData s)) None
                      = CallLogin e p pp).
      { destruct reply as [v|err]; [destruct (succeeded v)|]; simpl in Hin;
          repeat (destruct Hin as [Hin|Hin]; try discriminate Hin);
          try contradiction; exact Hin. }
      injection Hcall as <- <- <-. repeat split; try assumption.
      left. repeat split. exact He.
    + exfalso. revert Hin. simpl. intuition discriminate.
Qed.


(** The form never has a passphrase to show: in every state the user
    can reach the generated passphrase is the empty string and the box
    under the success message is not rendered. *)
Theorem no_passphrase_ever_shown (s : State) :
  reachable s -> generatedPassphrase s = "" /\ passphrase_box s = None.
Proof.
  intro Hr.
  assert (Hg : generatedPassphrase s = "").
  { induction Hr as [|s s' Hr IH Hstep]; [reflexivity|].
    destruct Hstep as [s reply Hp|s reply Hp|s f v Hf|s Hp|s Hp].
    - pose proof (ClientFacts.form_has_blank_passphrase s Hr Hp) as Hblank.
      unfold handleSubmit. split_handler; simpl; assumption.
    - unfold handlePassphraseSubmit.
      destruct (tempLoginData s) as [[e p]|]; [|exact IH].
      split_handler; exact IH.
    - exact IH.
    - exact IH.
    - reflexivity. }
  split; [exact Hg|].
  unfold passphrase_box. rewrite Hg.
  destruct (showPassphrasePopup s); [reflexivity|].
  destruct (blank (success s)); reflexivity.
Qed.

(** Submitting never edits the form: whatever the outcome, both submit
    handlers leave the fields and the mode as they were, and the popup
    handler leaves the popup open and the credentials aside. *)
Theorem submit_keeps_fields (s : State) (reply : Outcome Js.value) :
  let after_form := run s (handleSubmit s reply) in
  let after_popup := run s (handlePassphraseSubmit s reply) in
  formData after_form = formData s /\
  isSignup after_form = isSignup s /\
  formData after_popup = formData s /\
  isSignup after_popup = isSignup s /\
  showPassphrasePopup after_popup = showPassphrasePopup s /\
  tempLoginData after_popup = tempLoginData s.
Proof.
  cbn zeta. unfold handleSubmit, handlePassphraseSubmit.
  repeat split;
    try (destruct (tempLoginData s) as [[e p]|] eqn:Ht; [|simpl; auto]);
    split_handler; simpl; auto.
Qed.

(** A blank required field stops the submit before any call: no
    signup, no login, no timer, no popup, and the matching message. *)
Theorem blank_field_stops_submit (s : State) (reply : Outcome Js.value) :
  (if isSignup s
   then blank (name (formData s)) || blank (email (formData s))
        || blank (password (formData s)) || blank (phone (formData s))
   else blank (email (formData s)) || blank (password (formData s))) = true ->
  let acts := handleSubmit s reply in
  existsb is_context_call acts = false /\
  existsb is_timer acts = false /\
  existsb opens_popup acts = false /\
  error (run s acts)
  = (if isSignup s then "All fields are required"
     else "Email and password are required") /\
  success (run s acts) = "".
Proof.
  intro Hb. cbn zeta. unfold handleSubmit.
  destruct (isSignup s); rewrite Hb; repeat split.
Qed.

(** The completion callback is scheduled exactly when a context call
    was made and resolved to a truthy value: 5000 ms after a signup,
    1500 ms after a login; the popup handler schedules 1500 ms. *)
Theorem timer_iff_call_succeeded (s : State) (reply : Outcome Js.value) :
  let resolved_truthy :=
    match reply with
    | Returned v => succeeded v
    | Thrown _ => false
    end in
  let form := handleSubmit s reply in
  let popup := handlePassphraseSubmit s reply in
  existsb is_timer form = existsb is_context_call form && resolved_truthy /\
  existsb is_timer popup = existsb is_context_call popup && resolved_truthy /\
  (forall ms, In (SetTimeoutOnSuccess ms) form ->
              ms = if isSignup s then 5000%Z else 1500%Z) /\
  (forall ms, In (SetTimeoutOnSuccess ms) popup -> ms = 1500%Z).
Proof.
  cbn zeta. unfold handleSubmit, handlePassphraseSubmit. repeat split.
  - split_handler; reflexivity.
  - destruct (tempLoginData s) as [[e p]|]; [|reflexivity].
    split_handler; reflexivity.
  - intros ms. split_handler; simpl; intro Hin;
      repeat (destruct Hin as [Hin|Hin]; try discriminate Hin);
      try contradiction; now injection Hin.
  - intros ms. destruct (tempLoginData s) as [[e p]|]; [|intros []].
    split_handler; simpl; intro Hin;
      repeat (destruct Hin as [Hin|Hin]; try discriminate Hin);
      try contradiction; now injection Hin.
Qed.

(** Typing into an input: the field typed into reads back what was
    typed, every other field reads as before, both messages are
    cleared, and mode and popup stay. *)
Theorem input_change_reads_back (s : State) (f g : Field) (v : string) :
  let s' := run s (handleInputChange s f v) in
  get_field g (formData s')
  = (if field_eqb f g then v else get_field g (formData s)) /\
  error s' = "" /\
  success s' = "" /\
  isSignup s' = isSignup s /\
  showPassphrasePopup s' = showPassphrasePopup s.
Proof.
  cbn zeta. repeat split. destruct f, g; reflexivity.
Qed.

(** The popup, open on credentials typed into the login form, and how
    the user gets there. *)
Lemma open_popup_reachable :
  reachable
    (mkState false true (mkFormData "" "ann@example.com" "s3cret" "" "")
             "" "" "" false (Some ("ann@example.com", "s3cret"))).
Proof.
  pose proof reach_initial as R.
  ClientFacts.type_in R FEmail "ann@example.com".
  ClientFacts.type_in R FPassword "s3cret".
  match type of R with
  | reachable ?s =>
      exact (reach_step _ _ R (step_submit s (Returned (Js.Bool true)) eq_refl))
  end.
Qed.

(** The form after a signup that succeeded. *)
Lemma signed_up_reachable :
  reachable
    (mkState true false (mkFormData "Ann" "ann@example.com" "s3cret" "555-0101" "")
             "" "" "Account created successfully! Please save your passphrase:"
             false None).
Proof.
  exact (reach_step _ _ ClientFacts.filled_signup_reachable
           (step_submit
              (mkState true false
                       (mkFormData "Ann" "ann@example.com" "s3cret" "555-0101" "")
                       "" "" "" false None)
              (Returned (Js.Object [("passphrase", Js.Str "alpha bravo charlie")]))
              eq_refl)).
Qed.

Lemma popup_holds_credentials_witness :
  let s := mkState false true (mkFormData "" "ann@example.com" "s3cret" "" "")
                   "" "" "" false (Some ("ann@example.com", "s3cret")) in
  (showPassphrasePopup s = true <-> tempLoginData s <> None) /\
  "ann@example.com" = email (formData s) /\
  "s3cret" = password (formData s) /\
  "ann@example.com" <> admin_email /\
  blank "ann@example.com" = false /\
  blank "s3cret" = false.
Proof.
  intro s.
  destruct (popup_holds_credentials s open_popup_reachable) as [Hopen Hdata].
  split; [exact Hopen|].
  exact (Hdata "ann@example.com" "s3cret" eq_refl).
Defined.

Lemma login_calls_shape_witness :
  let s := mkState false false
                   (mkFormData "" admin_email "zamanix_admin" "" "")
                   "" "" "" false None in
  (admin_email = admin_email /\ @None string = None /\
   showPassphrasePopup s = false)
  \/ (admin_email <> admin_email /\ None = Some (passphrase (formData s)) /\
      showPassphrasePopup s = true).
Proof.
  intro s.
  assert (Hr : reachable s).
  { pose proof reach_initial as R.
    ClientFacts.type_in R FEmail admin_email.
    ClientFacts.type_in R FPassword "zamanix_admin".
    exact R. }
  destruct (login_calls_shape s (Returned (Js.Bool true))
                              admin_email "zamanix_admin" None Hr)
    as (_ & _ & _ & _ & H).
  - simpl. right. right. right. left. reflexivity.
  - exact H.
Defined.

Lemma no_passphrase_ever_shown_witness :
  let s := mkState true false
                   (mkFormData "Ann" "ann@example.com" "s3cret" "555-0101" "")
                   "" "" "Account created successfully! Please save your passphrase:"
                   false None in
  blank (success s) = false /\
  generatedPassphrase s = "" /\
  passphrase_box s = None.
Proof.
  intro s. split; [reflexivity|].
  exact (no_passphrase_ever_shown s signed_up_reachable).
Defined.

Lemma blank_field_stops_submit_witness :
  let s := mkState false false (mkFormData "" "ann@example.com" "" "" "")
                   "" "" "" false None in
  error (run s (handleSubmit s (Returned (Js.Bool true))))
  = "Email and password are required".
Proof.
  intro s.
  destruct (blank_field_stops_submit s (Returned (Js.Bool true)) eq_refl)
    as (_ & _ & _ & H & _).
  exact H.
Defined.

End ClientMore.

(* ================================================================== *)
(** * More on the bootstrap, the health check and the shutdown hook *)
(* ================================================================== *)

Module BootMore.
Import Boot BootOrder.

Lemma main_sleeps (connects : nat -> bool) (production : bool) :
  sleeps (main connects production)
  = sleeps (snd (connectDB connects 0 default_retries default_delay)).
Proof.
  unfold main, initializeApp.
  destruct (connectDB connects 0 default_retries default_delay) as [ok ct].
  cbn [snd]. destruct ok; cbn [negb];
    rewrite ?BootFacts.sleeps_app; destruct production; simpl;
    now rewrite app_nil_r.
Qed.

(** [connectDB] stops at the first call that resolves.  If the calls
    before the [k]-th are refused and the [k]-th resolves, [k] being
    within the retries, it resolves to [true] after [k + 1] calls and
    [k] sleeps, and the connection is the last thing it does: no call
    and no sleep follows the call that resolved. *)
Theorem connectDB_stops_at_first_success
        (connects : nat -> bool) (k n retries : nat) (delay : Q) :
  (k <= retries)%nat ->
  (forall j, (j < k)%nat -> connects (n + j)%nat = false) ->
  connects (n + k)%nat = true ->
  let t := snd (connectDB connects n retries delay) in
  fst (connectDB connects n retries delay) = true /\
  attempts t = S k /\
  length (sleeps t) = k /\
  last t MongooseConnect = Connected.
Proof.
  revert n retries delay.
  induction k as [|k IH]; intros n retries delay Hk Hfail Hok.
  - rewrite Nat.add_0_r in Hok.
    destruct retries; cbn [connectDB]; rewrite Hok; repeat split.
  - destruct retries as [|r]; [lia|].
    assert (Hn : connects n = false).
    { rewrite <- (Nat.add_0_r n). apply Hfail. lia. }
    cbn [connectDB]. rewrite Hn.
    destruct (IH (S n) r (delay * (3 # 2))) as (Hres & Ha & Hs & Hl).
    + lia.
    + intros j Hj. replace (S n + j)%nat with (n + S j)%nat by lia.
      apply Hfail. lia.
    + now replace (S n + k)%nat with (n + S k)%nat by lia.
    + destruct (connectDB connects (S n) r (delay * (3 # 2))) as [ok t].
      cbn [fst snd] in *. repeat split.
      * exact Hres.
      * unfold attempts in *. simpl. now rewrite Ha.
      * cbn [sleeps length]. now rewrite Hs.
      * destruct t as [|e t]; [discriminate Ha|]. exact Hl.
Qed.

(** [connectDB] gives up only after every call it is allowed.  It
    resolves to [false] exactly when the first call and each of the
    [retries] after it are refused, and then it has made [retries + 1]
    calls, slept [retries] times and ended on the refusal. *)
Theorem connectDB_gives_up_last
        (connects : nat -> bool) (n retries : nat) (delay : Q) :
  let t := snd (connectDB connects n retries delay) in
  (fst (connectDB connects n retries delay) = false <->
   forall j, (j <= retries)%nat -> connects (n + j)%nat = false) /\
  (fst (connectDB connects n retries delay) = false ->
   attempts t = S retries /\
   length (sleeps t) = retries /\
   last t MongooseConnect = ConnectionError).
Proof.
  cbn zeta. split.
  - rewrite BootFacts.connectDB_result. split.
    + intros H j Hj.
      destruct (connects (n + j)%nat) eqn:Hc; [|reflexivity].
      assert (Hex : existsb connects (seq n (S retries)) = true).
      { apply existsb_exists. exists (n + j)%nat. split; [|exact Hc].
        apply in_seq. lia. }
      congruence.
    + intro H. destruct (existsb connects (seq n (S retries))) eqn:Hex;
        [|reflexivity].
      apply existsb_exists in Hex as (x & Hin & Hc). apply in_seq in Hin.
      rewrite <- (H (x - n)%nat), <- Hc; [f_equal|]; lia.
  - intro Hres.
    pose proof (BootFacts.connectDB_exhausted connects retries n delay Hres) as Ha.
    pose proof (BootFacts.connectDB_attempts connects retries n delay) as [Hn _].
    cbn zeta in Hn. repeat split; [exact Ha|lia|].
    clear Ha Hn. revert n delay Hres.
    induction retries as [|r IH]; intros n delay.
    + simpl. destruct (connects n); [discriminate|reflexivity].
    + cbn [connectDB]. destruct (connects n); [discriminate|].
      specialize (IH (S n) (delay * (3 # 2))).
      destruct (connectDB connects (S n) r (delay * (3 # 2))) as [ok t].
      cbn [fst snd] in *. intro H. specialize (IH H).
      destruct t as [|e t]; [discriminate IH|exact IH].
Qed.

(** A start sleeps 65937.5 ms at most between its calls, and exactly
    that long when the database stays out of reach. *)
Theorem total_backoff_bound (connects : nat -> bool) (production : bool) :
  let t := main connects production in
  total_sleep t <= 131875 # 2 /\
  (database_up connects = false -> total_sleep t == 131875 # 2).
Proof.
  cbn zeta. unfold total_sleep, database_up. rewrite main_sleeps.
  pose proof (BootFacts.connectDB_result connects default_retries 0 default_delay)
    as Hres.
  pose proof (BootFacts.connectDB_attempts connects default_retries 0 default_delay)
    as [Hn Hle].
  pose proof (BootFacts.connectDB_sleeps connects default_retries 0 default_delay)
    as Hsl.
  pose proof (BootFacts.connectDB_exhausted connects default_retries 0 default_delay)
    as Hex.
  cbn zeta in *. rewrite <- Hres.
  destruct (connectDB connects 0 default_retries default_delay) as [ok ct].
  cbn [fst snd] in *. unfold default_retries in *.
  rewrite Hsl.
  assert (Hcase : (length (sleeps ct) = 0 \/ length (sleeps ct) = 1 \/
                   length (sleeps ct) = 2 \/ length (sleeps ct) = 3 \/
                   length (sleeps ct) = 4 \/ length (sleeps ct) = 5)%nat) by lia.
  split.
  - repeat (destruct Hcase as [->|Hcase]); try rewrite Hcase;
      apply Qle_bool_iff; reflexivity.
  - intro Hdown. specialize (Hex Hdown).
    replace (length (sleeps ct)) with 5%nat by lia. reflexivity.
Qed.

Lemma before_split (a b : Event) (l r : list Event) :
  In a l -> In b r -> before a b (l ++ r).
Proof.
  intros Ha Hb.
  apply in_split in Ha as (l1 & l2 & ->). apply in_split in Hb as (r1 & r2 & ->).
  exists l1, (l2 ++ r1)%list, r2.
  rewrite <- !app_assoc. simpl. reflexivity.
Qed.

Lemma before_app_l (a b : Event) (p t : list Event) :
  before a b t -> before a b (p ++ t).
Proof.
  intros (l1 & l2 & l3 & ->). exists (p ++ l1)%list, l2, l3.
  now rewrite <- app_assoc.
Qed.

(** Cuts a list of events after its [k]-th, the one event before the
    cut and the other after it. *)
Ltac cut_at k :=
  match goal with
  | |- before ?a ?b ?t =>
      change (before a b (firstn k t ++ skipn k t));
      apply before_split; simpl; tauto
  end.

(** The order of the mounts of a start that reaches the database: the
    health route comes first, before the API routers; the routers come
    before the 404 handler, the 404 handler before the error handler,
    and the server listens after them all.  In production the static
    catch-all sits between the routers and the 404 handler.  The health
    route is mounted even when the database is out of reach. *)
Theorem mount_order (connects : nat -> bool) (production : bool) :
  let t := main connects production in
  In (MountRoute "/api/health") t /\
  (database_up connects = true ->
   before (MountRoute "/api/health") (MountRouter "/api/blogs") t /\
   before (MountRouter "/api/blogs") (MountRouter "/api/users") t /\
   before (MountRouter "/api/users") (UseMiddleware "notFound") t /\
   before (UseMiddleware "notFound") (UseMiddleware "errorHandler") t /\
   before (UseMiddleware "errorHandler") Listen t /\
   (production = true ->
    before (MountRouter "/api/users") (MountRoute "*") t /\
    before (MountRoute "*") (UseMiddleware "notFound") t)).
Proof.
  cbn zeta. split; [simpl; tauto|].
  unfold main, initializeApp, database_up.
  rewrite <- (BootFacts.connectDB_result connects default_retries 0 default_delay).
  destruct (connectDB connects 0 default_retries default_delay) as [ok ct].
  cbn [fst]. intros ->. cbn [negb].
  split.
  { apply before_split; [simpl; tauto|].
    apply in_or_app. right. apply in_or_app. left. simpl. tauto. }
  destruct production; repeat split; try discriminate;
    do 2 apply before_app_l;
    first [cut_at 2%nat | cut_at 3%nat | cut_at 4%nat | cut_at 5%nat
          | cut_at 6%nat | cut_at 7%nat].
Qed.

(** The health route answers 200 'healthy' exactly when the connection
    is in state 1 and the ping resolves, and 503 'unhealthy' otherwise;
    a ping that throws is caught and never thrown on.  The body reports
    the two tests one by one, each whatever the other gives:
    [database.connected] is whether the state is 1,
    [database.operational] is whether the ping resolved, and
    [database.state] is the state itself. *)
Theorem health_status (p : Ops.Probe) :
  let response := Ops.health p in
  let database := Js.get "database" (body response) in
  let connected := Z.eqb (Ops.readyState p) 1 in
  let operational :=
    match Ops.ping p with
    | Returned _ => true
    | Thrown _ => false
    end in
  Js.get "connected" database = Js.Bool connected /\
  Js.get "operational" database = Js.Bool operational /\
  Js.get "state" database = Js.Number (Ops.readyState p) /\
  Js.get "host" database = Ops.host p /\
  statusCode response = (if connected && operational then 200%Z else 503%Z) /\
  Js.get "status" (body response)
  = Js.Str (if connected && operational then "healthy" else "unhealthy") /\
  (statusCode response = 200%Z <->
   Ops.readyState p = 1%Z /\ exists u, Ops.ping p = Returned u).
Proof.
  cbn zeta. unfold Ops.health.
  destruct (Z.eqb_spec (Ops.readyState p) 1) as [Hr|Hr];
    destruct (Ops.ping p) as [u|e]; simpl; repeat split;
    try discriminate; try assumption; try (now exists u);
    try (intros [H1 [x Hx]]; first [discriminate Hx|contradiction]).
Qed.

(** The shutdown hook always ends by exiting the process, once.  The
    code is 0 exactly when the server and the database connection both
    closed; the database connection is closed only after the server
    closed, so a server that fails to close leaves it open.  Outside
    production an unhandled rejection exits nothing. *)
Theorem shutdown_exits (serverClose mongooseClose : Outcome unit) :
  let t := Ops.shutdown serverClose mongooseClose in
  (exists code,
      Ops.exit_codes t = [code] /\
      last t Ops.ServerClose = Ops.ProcessExit code /\
      (code = 0%Z \/ code = 1%Z) /\
      (code = 0%Z <->
       (exists a, serverClose = Returned a) /\ exists b, mongooseClose = Returned b))
  /\
  (Ops.closes_database t = true <-> exists a, serverClose = Returned a)
  /\
  Ops.exit_codes (Ops.onUnhandledRejection false serverClose mongooseClose) = [].
Proof.
  cbn zeta. unfold Ops.shutdown.
  destruct serverClose as [a|e1]; destruct mongooseClose as [b|e2]; simpl.
  - split; [exists 0%Z|split; [|reflexivity]].
    + repeat split; try tauto; eexists; reflexivity.
    + split; [intros _; now exists a|reflexivity].
  - split; [exists 1%Z|split; [|reflexivity]].
    + repeat split; try tauto; try discriminate.
      intros [_ [x Hx]]. discriminate Hx.
    + split; [intros _; now exists a|reflexivity].
  - split; [exists 1%Z|split; [|reflexivity]].
    + repeat split; try tauto; try discriminate.
      intros [[x Hx] _]. discriminate Hx.
    + split; [discriminate|intros [x Hx]; discriminate Hx].
  - split; [exists 1%Z|split; [|reflexivity]].
    + repeat split; try tauto; try discriminate.
      intros [[x Hx] _]. discriminate Hx.
    + split; [discriminate|intros [x Hx]; discriminate Hx].
Qed.

Lemma connectDB_stops_at_first_success_witness :
  let t := snd (connectDB (fun n => Nat.eqb n 2) 0 default_retries default_delay) in
  attempts t = 3%nat /\ length (sleeps t) = 2%nat.
Proof.
  intro t.
  destruct (connectDB_stops_at_first_success
              (fun n => Nat.eqb n 2) 2 0 default_retries default_delay)
    as (_ & H & Hs & _).
  - unfold default_retries. lia.
  - intros j Hj. destruct j as [|[|j]]; [reflexivity|reflexivity|lia].
  - reflexivity.
  - split; [exact H|exact Hs].
Defined.

End BootMore.
